(** * A shallow embedding of the Telegram translation bot

    The development follows the files of the repository:
    - [JS]: the fragment of the JavaScript runtime the sources rely on
      (strings as sequences of UTF-16 code units, [trim], [startsWith],
      truthiness, property access on parsed JSON, completions);
    - [Utils]: [utils.js], the file [bot.js] requires as [./utils]
      ([isAuthorized], [sendMessage]);
    - [Adapter], [Api]: [app/api.js] ([callDeepSeekAPI]);
    - [ApiV2]: [app/apiv2.js] ([buildStandardMessages], [buildGoogleMessages],
      [callOpenRouterAPI]);
    - [Bot]: the current [bot.js], the one with the model catalogue
      (configuration, start-up, the [onText] handlers, the general
      ['message'] handler) and the dispatch of an update by
      [node-telegram-bot-api].

    Console logging has no influence on any outcome and is left out. *)

From Stdlib Require Import List NArith ZArith Bool String Ascii Lia Floats.
Import ListNotations.

Set Implicit Arguments.
Set Warnings "-register-all".

(* ================================================================= *)
(** ** The JavaScript fragment *)

Module JS.

(** A JavaScript string is a sequence of UTF-16 code units. *)
Definition char := N.
Definition jsstring := list char.

(** String literals of the sources, written as Rocq strings. *)
Definition lit (s : string) : jsstring :=
  map (fun a => N_of_ascii a) (list_ascii_of_string s).

(** The two characters that cannot be typed in a literal here. *)
Definition nl : jsstring := [10%N].   (* "\n" *)
Definition dq : jsstring := [34%N].   (* the double quote *)

(** [a === b] on strings. *)
Fixpoint str_eqb (a b : jsstring) : bool :=
  match a, b with
  | [], [] => true
  | x :: a', y :: b' => N.eqb x y && str_eqb a' b'
  | _, _ => false
  end.

(** [s.startsWith(p)] *)
Fixpoint startsWith (p s : jsstring) : bool :=
  match p, s with
  | [], _ => true
  | x :: p', y :: s' => N.eqb x y && startsWith p' s'
  | _ :: _, [] => false
  end.

(** [arr.includes(s)] on an array of strings. *)
Definition includes (arr : list jsstring) (s : jsstring) : bool :=
  existsb (fun c => str_eqb c s) arr.

(** ECMAScript LineTerminator: LF, CR, LS, PS. *)
Definition is_line_terminator (c : char) : bool :=
  (N.eqb c 10 || N.eqb c 13 || N.eqb c 8232 || N.eqb c 8233)%N.

(** ECMAScript WhiteSpace: TAB, VT, FF, SP, NBSP, ZWNBSP and the other
    members of the Unicode category Zs. *)
Definition is_white_space (c : char) : bool :=
  (N.eqb c 9 || N.eqb c 11 || N.eqb c 12 || N.eqb c 32 || N.eqb c 160
   || N.eqb c 5760 || (N.leb 8192 c && N.leb c 8202)
   || N.eqb c 8239 || N.eqb c 8287 || N.eqb c 12288 || N.eqb c 65279)%N.

(** What [String.prototype.trim] strips: WhiteSpace and LineTerminator. *)
Definition is_trimmed_char (c : char) : bool :=
  is_white_space c || is_line_terminator c.

Fixpoint drop_while (p : char -> bool) (s : jsstring) : jsstring :=
  match s with
  | [] => []
  | c :: s' => if p c then drop_while p s' else s
  end.

Definition trimStart (s : jsstring) : jsstring := drop_while is_trimmed_char s.
Definition trimEnd (s : jsstring) : jsstring :=
  rev (drop_while is_trimmed_char (rev s)).

(** [s.trim()] *)
Definition trim (s : jsstring) : jsstring := trimEnd (trimStart s).

(** [!s] for a string: only the empty string is falsy. *)
Definition is_empty (s : jsstring) : bool :=
  match s with [] => true | _ :: _ => false end.

(** [a || b] for strings. *)
Definition str_or (a b : jsstring) : jsstring :=
  if is_empty a then b else a.

(** [`${n}`] for a number holding an integer: its decimal digits. *)
Fixpoint uint_digits (d : Decimal.uint) : jsstring :=
  match d with
  | Decimal.Nil => []
  | Decimal.D0 r => 48%N :: uint_digits r
  | Decimal.D1 r => 49%N :: uint_digits r
  | Decimal.D2 r => 50%N :: uint_digits r
  | Decimal.D3 r => 51%N :: uint_digits r
  | Decimal.D4 r => 52%N :: uint_digits r
  | Decimal.D5 r => 53%N :: uint_digits r
  | Decimal.D6 r => 54%N :: uint_digits r
  | Decimal.D7 r => 55%N :: uint_digits r
  | Decimal.D8 r => 56%N :: uint_digits r
  | Decimal.D9 r => 57%N :: uint_digits r
  end.

Definition decimal_N (n : N) : jsstring := uint_digits (N.to_uint n).

Definition decimal_Z (z : Z) : jsstring :=
  match z with
  | Zneg p => 45%N :: decimal_N (Npos p)
  | _ => decimal_N (Z.to_N z)
  end.

(** [hay] has [needle] as a substring. *)
Definition contains (needle hay : jsstring) : Prop :=
  exists pre post, hay = pre ++ needle ++ post.

(** *** Thrown values and completions *)

Record JsError := mkError { err_name : jsstring; err_message : jsstring }.

Inductive Completion (A : Type) : Type :=
| Normal (a : A)
| Throw (e : JsError).
Arguments Normal {A} a.
Arguments Throw {A} e.

Definition bind {A B} (c : Completion A) (k : A -> Completion B)
  : Completion B :=
  match c with
  | Normal a => k a
  | Throw e => Throw e
  end.

(** *** Values produced by [JSON.parse] *)

Inductive JsValue : Type :=
| JUndefined
| JNull
| JBool (b : bool)
| JNumber (x : float)
| JString (s : jsstring)
| JArray (items : list JsValue)
| JObject (props : list (jsstring * JsValue)).

(** Own property lookup on a parsed object. *)
Fixpoint lookup (k : jsstring) (props : list (jsstring * JsValue))
  : option JsValue :=
  match props with
  | [] => None
  | (k', v) :: rest => if str_eqb k' k then Some v else lookup k rest
  end.

(** ToBoolean. *)
Definition truthy (v : JsValue) : bool :=
  match v with
  | JUndefined | JNull => false
  | JBool b => b
  | JNumber x => negb (PrimFloat.eqb x 0%float || negb (PrimFloat.eqb x x))
  | JString s => negb (is_empty s)
  | JArray _ | JObject _ => true
  end.

(** [typeof v === 'string'] *)
Definition is_string (v : JsValue) : bool :=
  match v with JString _ => true | _ => false end.

(** What the sources need from the host and cannot be written down here:
    the JSON parser, the number/string conversions and the texts of the
    engine's own [TypeError]s. *)
Class Runtime : Type := {
  JSON_parse : jsstring -> Completion JsValue;
  Number_toString : float -> jsstring;
  StringToNumber : jsstring -> float;
  TypeError_message : JsValue -> jsstring -> jsstring
}.

Section WithRuntime.
Context {R : Runtime}.

Definition TypeError (v : JsValue) (k : jsstring) : JsError :=
  mkError (lit "TypeError") (TypeError_message v k).

(** [v.k] for the named properties the sources read ([error], [message],
    [choices], [content]); none of them is inherited from a prototype, so on
    an object the read is an own-property lookup, on the other non-nullish
    values it is [undefined], and on [null]/[undefined] it throws. *)
Definition get (v : JsValue) (k : jsstring) : Completion JsValue :=
  match v with
  | JUndefined | JNull => Throw (TypeError v k)
  | JObject props =>
      Normal (match lookup k props with Some x => x | None => JUndefined end)
  | _ => Normal JUndefined
  end.

(** [v[0]] *)
Definition item0 (v : JsValue) : Completion JsValue :=
  match v with
  | JUndefined | JNull => Throw (TypeError v (lit "0"))
  | JString (c :: _) => Normal (JString [c])
  | JArray (x :: _) => Normal x
  | JObject props =>
      Normal (match lookup (lit "0") props with
              | Some x => x | None => JUndefined end)
  | _ => Normal JUndefined
  end.

(** ToString, as a template literal applies it.  An object that carries an
    own (hence non-callable) [toString] cannot be converted. *)
Fixpoint ToString (v : JsValue) : Completion jsstring :=
  match v with
  | JUndefined => Normal (lit "undefined")
  | JNull => Normal (lit "null")
  | JBool true => Normal (lit "true")
  | JBool false => Normal (lit "false")
  | JNumber x => Normal (Number_toString x)
  | JString s => Normal s
  | JArray items =>
      (fix join (l : list JsValue) : Completion jsstring :=
         match l with
         | [] => Normal []
         | x :: rest =>
             bind (match x with
                   | JUndefined | JNull => Normal []
                   | _ => ToString x
                   end)
                  (fun sx =>
                     match rest with
                     | [] => Normal sx
                     | _ :: _ =>
                         bind (join rest)
                              (fun sr => Normal (sx ++ lit "," ++ sr))
                     end)
         end) items
  | JObject props =>
      match lookup (lit "toString") props with
      | Some _ => Throw (TypeError v (lit "toString"))
      | None => Normal (lit "[object Object]")
      end
  end.

(** ToNumber. *)
Definition ToNumber (v : JsValue) : Completion float :=
  match v with
  | JUndefined => Normal PrimFloat.nan
  | JNull => Normal 0%float
  | JBool true => Normal 1%float
  | JBool false => Normal 0%float
  | JNumber x => Normal x
  | JString s => Normal (StringToNumber s)
  | JArray _ | JObject _ => bind (ToString v) (fun s => Normal (StringToNumber s))
  end.

(** [v.length > 0] *)
Definition length_gt0 (v : JsValue) : Completion bool :=
  match v with
  | JUndefined | JNull => Throw (TypeError v (lit "length"))
  | JString s => Normal (negb (is_empty s))
  | JArray items => Normal (match items with [] => false | _ :: _ => true end)
  | JObject props =>
      match lookup (lit "length") props with
      | Some x => bind (ToNumber x) (fun n => Normal (PrimFloat.ltb 0%float n))
      | None => Normal false
      end
  | _ => Normal false
  end.

End WithRuntime.

End JS.

Import JS.

Notation "x <- c ;; k" := (bind c (fun x => k))
  (at level 61, c at next level, right associativity).

(* ================================================================= *)
(** ** The HTTP exchange with the AI endpoint *)

Module Http.

(** [{ type: "text", text: ... }] *)
Record ContentBlock := mkBlock { block_type : jsstring; block_text : jsstring }.

(** The [content] of a chat message: a plain string or an array of blocks. *)
Inductive Content : Type :=
| Flat (s : jsstring)
| Blocks (blocks : list ContentBlock).

Record Message := mkMessage { role : jsstring; content : Content }.

(** What [fetch] is given: the endpoint, the [Authorization] header and the
    two fields of the JSON body. *)
Record Request := mkRequest {
  req_url : jsstring;
  req_authorization : jsstring;
  req_model : jsstring;
  req_messages : list Message
}.

(** What [fetch] resolves to.  [body] is the outcome of reading the body
    ([response.text()]), which may itself fail. *)
Record Response := mkResponse {
  status : N;
  statusText : jsstring;
  body : Completion jsstring
}.

(** [response.ok]: the status is in the range 200-299. *)
Definition ok (r : Response) : bool :=
  (N.leb 200 (status r) && N.leb (status r) 299)%N.

(** [response.json()] *)
Definition json {R : Runtime} (r : Response) : Completion JsValue :=
  text <- body r ;; JSON_parse text.

(** The network: every request is answered by a response or a rejection. *)
Definition Fetch := Request -> Completion Response.

End Http.
Import Http.

(* ================================================================= *)
(** ** The blocks [api.js] and [apiv2.js] have word for word in common *)

Module Adapter.
Section WithRuntime.
Context {R : Runtime}.

Definition PROMPT_SYSTEM : jsstring :=
  lit "You are an AI assistant specialized in refining text for AI prompts. Translate the user's input into clear, concise, and unambiguous English suitable for prompting another AI. Respond *only* with the translated text and absolutely nothing else. Do not add any introductory phrases, explanations, or conversational filler.".

Definition PROMPT_PREFIX : jsstring :=
  lit "Translate the following prompt into English" ++ nl
  ++ lit "--- --- ---" ++ nl.

Definition COMMIT_SYSTEM : jsstring :=
  lit "You are an AI assistant specialized in formatting text into git commit messages. Translate the user's input into a clear and concise English git commit message following conventional standards (e.g., 'feat: add user authentication'). Respond *only* in the format `git commit -m "
  ++ dq ++ lit "COMMIT_CONTENT" ++ dq
  ++ lit "`. If you can think of 1 or 2 significantly better alternative phrasings for the commit message, provide them on new lines, each prefixed with 'Alternative:'. Do not add any other introductory text, explanations, or conversation.".

Definition COMMIT_PREFIX : jsstring :=
  lit "Translate the following commit message into English" ++ nl
  ++ lit "--- --- ---" ++ nl.

Definition CHAT_SYSTEM : jsstring :=
  lit "You are a helpful AI assistant. Respond conversationally and helpfully to the user's message. Always respond in User's language. If the user uses Chinese, respond in Traditional Chinese.".

(** The [if (mode === 'prompt') ... else if ... else] chain: the pair
    [(systemPrompt, modPrefix)], or [None] on the final [else]. *)
Definition mode_settings (mode : jsstring) : option (jsstring * jsstring) :=
  if str_eqb mode (lit "prompt") then Some (PROMPT_SYSTEM, PROMPT_PREFIX)
  else if str_eqb mode (lit "commit") then Some (COMMIT_SYSTEM, COMMIT_PREFIX)
  else if str_eqb mode (lit "chat") then Some (CHAT_SYSTEM, [])
  else None.

(** The inner [try { JSON.parse(errorBody) ... } catch (e) {}]: the text
    appended to [friendlyError], empty when nothing is appended. *)
Definition error_details (errorBody : jsstring) : jsstring :=
  match
    (errorJson <- JSON_parse errorBody ;;
     error <- get errorJson (lit "error") ;;
     if truthy error then
       message <- get error (lit "message") ;;
       if truthy message then
         text <- ToString message ;;
         Normal (lit " Details: " ++ text)
       else Normal []
     else Normal [])
  with
  | Normal appended => appended
  | Throw _ => []
  end.

(** The [if (!response.ok)] block, once the error body has been read. *)
Definition friendlyError (st : N) (errorBody : jsstring) : jsstring :=
  lit "Sorry, I encountered an API error (" ++ decimal_N st ++ lit ")."
  ++ error_details errorBody.

(** The test
    [data.choices && data.choices.length > 0 && data.choices[0].message
     && typeof data.choices[0].message.content === 'string'],
    returning the content when it holds. *)
Definition choice_content (data : JsValue) : Completion (option jsstring) :=
  choices <- get data (lit "choices") ;;
  if negb (truthy choices) then Normal None else
  nonempty <- length_gt0 choices ;;
  if negb nonempty then Normal None else
  first <- item0 choices ;;
  message <- get first (lit "message") ;;
  if negb (truthy message) then Normal None else
  content <- get message (lit "content") ;;
  match content with
  | JString s => Normal (Some s)
  | _ => Normal None
  end.

(** The outer [catch (error)] block. *)
Definition on_catch (error : JsError) : jsstring :=
  if str_eqb (err_name error) (lit "AbortError")
  then lit "Sorry, the request to the AI timed out."
  else lit "Sorry, I encountered a network or processing error while contacting the AI. Details: "
       ++ err_message error.

(** The body of the outer [try], from the [fetch] on. *)
Definition exchange (fetch : Fetch) (req : Request) : jsstring :=
  match
    (response <- fetch req ;;
     if negb (ok response) then
       errorBody <- body response ;;
       Normal (friendlyError (status response) errorBody)
     else
       data <- json response ;;
       found <- choice_content data ;;
       match found with
       | Some raw =>
           Normal (str_or (trim raw) (lit "[Received empty response from AI]"))
       | None =>
           Normal (lit "Sorry, I received an unexpected or empty response from the AI.")
       end)
  with
  | Normal result => result
  | Throw error => on_catch error
  end.

End WithRuntime.
End Adapter.

(* ================================================================= *)
(** ** [app/api.js] *)

Module Api.
Section WithRuntime.
Context {R : Runtime}.

(** [callDeepSeekAPI]: the requests issued and the string returned. *)
Definition callDeepSeekAPI (fetch : Fetch)
    (inputText mode currentModelId deepSeekApiEndpoint deepSeekApiKey : jsstring)
  : list Request * jsstring :=
  let userPrompt := trim inputText in
  if is_empty userPrompt then ([], lit "Input cannot be empty.") else
  match Adapter.mode_settings mode with
  | None => ([], lit "Internal error: Invalid processing mode.")
  | Some (systemPrompt, modPrefix) =>
      let messages :=
        [ mkMessage (lit "system") (Flat systemPrompt);
          mkMessage (lit "user") (Flat (modPrefix ++ userPrompt)) ] in
      let req := mkRequest deepSeekApiEndpoint
                           (lit "Bearer " ++ deepSeekApiKey)
                           currentModelId messages in
      ([req], Adapter.exchange fetch req)
  end.

End WithRuntime.
End Api.

(* ================================================================= *)
(** ** [app/apiv2.js] *)

Module ApiV2.
Section WithRuntime.
Context {R : Runtime}.

Definition buildStandardMessages (systemPrompt userPrompt modPrefix : jsstring)
  : list Message :=
  (if is_empty systemPrompt then []
   else [ mkMessage (lit "system") (Flat systemPrompt) ])
  ++ [ mkMessage (lit "user") (Flat (modPrefix ++ userPrompt)) ].

Definition buildGoogleMessages (systemPrompt userPrompt modPrefix : jsstring)
  : list Message :=
  (if is_empty systemPrompt then []
   else [ mkMessage (lit "system")
                    (Blocks [ mkBlock (lit "text") systemPrompt ]) ])
  ++ [ mkMessage (lit "user")
                 (Blocks [ mkBlock (lit "text") (modPrefix ++ userPrompt) ]) ].

(** The request [callOpenRouterAPI] composes once input and mode are
    accepted. *)
Definition compose (systemPrompt userPrompt modPrefix : jsstring)
    (currentModelId openRouterApiEndpoint openRouterApiKey : jsstring)
  : Request :=
  let isGoogleModel := startsWith (lit "google/") currentModelId in
  let messages :=
    if isGoogleModel
    then buildGoogleMessages systemPrompt userPrompt modPrefix
    else buildStandardMessages systemPrompt userPrompt modPrefix in
  mkRequest openRouterApiEndpoint (lit "Bearer " ++ openRouterApiKey)
            currentModelId messages.

(** [callOpenRouterAPI]: the requests issued and the string returned. *)
Definition callOpenRouterAPI (fetch : Fetch)
    (inputText mode currentModelId openRouterApiEndpoint openRouterApiKey : jsstring)
  : list Request * jsstring :=
  let userPrompt := trim inputText in
  if is_empty userPrompt then ([], lit "Input cannot be empty.") else
  match Adapter.mode_settings mode with
  | None => ([], lit "Internal error: Invalid processing mode.")
  | Some (systemPrompt, modPrefix) =>
      let req := compose systemPrompt userPrompt modPrefix
                         currentModelId openRouterApiEndpoint openRouterApiKey in
      ([req], Adapter.exchange fetch req)
  end.

End WithRuntime.
End ApiV2.

(* ================================================================= *)
(** ** The Telegram side: what arrives and what the bot asks for *)

Module Telegram.

(** The fields of an incoming message the sources read: [msg.chat.id],
    [msg.from.id] and [msg.text] (absent on stickers, photos, ...). *)
Record Msg := mkMsg {
  chat_id : Z;
  from_id : Z;
  text : option jsstring
}.

(** The calls the bot makes on the outside world, in order. *)
Inductive Event : Type :=
| SendMessage (chatId : Z) (body : jsstring)            (* bot.sendMessage *)
| EditMessageText (body : jsstring) (chatId : Z) (message_id : N)
                                                         (* bot.editMessageText *)
| HttpPost (req : Request).                              (* fetch *)

(** How the outside world answers while one message is handled: the
    network, the outcome of sending the acknowledgment (the [message_id] of
    the message sent, or [None] when the send is rejected) and whether the
    edit of the acknowledgment goes through. *)
Record World := mkWorld {
  fetch : Fetch;
  ack : option N;
  edit_ok : bool
}.

End Telegram.
Import Telegram.

(* ================================================================= *)
(** ** [utils.js] *)

Module Utils.

(** [authorizedUserId] is the result of [parseInt]: an integer, or [NaN]
    (here [None]). *)
Definition isAuthorized (userId : Z) (authorizedUserId : option Z) : bool :=
  match authorizedUserId with
  | None => false
  | Some a => Z.eqb userId a
  end.

(** The helper sends nothing when the text is blank. *)
Definition sendMessage (chatId : Z) (body : jsstring) : list Event :=
  if is_empty (trim body) then [] else [SendMessage chatId body].

End Utils.

(* ================================================================= *)
(** ** [bot.js] *)

Module Bot.

Record Config := mkConfig {
  token : jsstring;
  authorizedUserId : option Z;
  deepSeekApiKey : jsstring;
  deepSeekApiEndpoint : jsstring;
  defaultModelId : jsstring
}.

(** An entry of [models.json].  An absent [name] or [notes] behaves like the
    empty string in the two places that read them ([name || id] and
    [if (notes)]). *)
Record Model := mkModel {
  id : jsstring;
  name : jsstring;
  notes : jsstring
}.

(** The three [let] variables of the bot. *)
Record State := mkState {
  currentMode : jsstring;
  availableModels : list Model;
  currentModelId : jsstring
}.

(** What the [try] block around [models.json] meets. *)
Inductive ModelsFile : Type :=
| Missing                        (* fs.existsSync is false *)
| Unreadable                     (* reading, parsing or scanning throws *)
| Parsed (models : list Model).

(** The "Basic validation" that precedes everything else. *)
Definition config_ok (cfg : Config) : bool :=
  negb (is_empty (token cfg))
  && match authorizedUserId cfg with
     | Some a => negb (Z.eqb a 0)
     | None => false
     end
  && negb (is_empty (deepSeekApiKey cfg))
  && negb (is_empty (deepSeekApiEndpoint cfg))
  && negb (is_empty (defaultModelId cfg)).

Definition default_entry (cfg : Config) : Model :=
  mkModel (defaultModelId cfg)
          (defaultModelId cfg ++ lit " (Default from .env)") [].

(** Start-up: [None] is [process.exit(1)]. *)
Definition init (cfg : Config) (file : ModelsFile) : option State :=
  if negb (config_ok cfg) then None else
  match file with
  | Parsed models =>
      let defaultModelExists :=
        existsb (fun model => str_eqb (id model) (defaultModelId cfg)) models in
      if defaultModelExists
      then Some (mkState (lit "prompt") models (defaultModelId cfg))
      else match models with
           | first :: _ => Some (mkState (lit "prompt") models (id first))
           | [] => None
           end
  | Missing =>
      Some (mkState (lit "prompt") [default_entry cfg] (defaultModelId cfg))
  | Unreadable =>
      Some (mkState (lit "prompt") [default_entry cfg] (defaultModelId cfg))
  end.

(** *** The patterns given to [bot.onText]

    Each returns the capture ([match[1]], empty when the pattern has no
    group) when the text matches. The patterns carry no flag: [^] and [$] are
    the two ends of the text, and [.] is any code unit but a line
    terminator. *)

(** [/^\/start/] *)
Definition re_start (t : jsstring) : option jsstring :=
  if startsWith (lit "/start") t then Some [] else None.

(** [/^\/help$/], [/^\/prompt_mode$/], ...: the whole text is the token. *)
Definition re_exact (tok t : jsstring) : option jsstring :=
  if str_eqb t tok then Some [] else None.

(** [/^\/set_model (.+)$/]: the greedy group has to reach the end of the
    text, so it is everything after the first space. *)
Definition re_set_model (t : jsstring) : option jsstring :=
  if startsWith (lit "/set_model ") t then
    let arg := skipn 11 t in
    if negb (is_empty arg) && forallb (fun c => negb (is_line_terminator c)) arg
    then Some arg else None
  else None.

Section Handlers.
Variable cfg : Config.
Context {R : Runtime}.

Definition authorized (msg : Msg) : bool :=
  Utils.isAuthorized (from_id msg) (authorizedUserId cfg).

(** A callback registered with [onText]: from the message, the capture and
    the current variables to the new variables and the calls made. *)
Definition Callback := Msg -> jsstring -> State -> State * list Event.

Definition on_start : Callback := fun msg _ st =>
  if authorized msg
  then (st, Utils.sendMessage (chat_id msg) (lit "You are authorized."))
  else (st, [SendMessage (chat_id msg)
               (lit "User ID " ++ decimal_Z (from_id msg)
                ++ lit " is not authorized to use this bot.")]).

Definition helpText (st : State) : jsstring :=
  lit "Available Commands:" ++ nl
  ++ lit "/help - Show this help message." ++ nl
  ++ lit "/prompt_mode - Switch to Prompt Translation Mode." ++ nl
  ++ lit "/commit_mode - Switch to Commit Translation Mode." ++ nl
  ++ lit "/chat_mode - Switch to General Chat Mode." ++ nl
  ++ lit "/list_models - Show available AI models and the current one." ++ nl
  ++ lit "/set_model <model_id> - Switch the AI model to use." ++ nl
  ++ nl
  ++ lit "Current Mode: " ++ currentMode st ++ nl
  ++ lit "Current Model: " ++ currentModelId st ++ nl
  ++ nl
  ++ lit "Send any text message to process it with the current mode and model.".

Definition on_help : Callback := fun msg _ st =>
  if negb (authorized msg) then (st, []) else
  (st, Utils.sendMessage (chat_id msg) (helpText st)).

(** The three mode commands differ in the mode and in the reply only. *)
Definition on_mode (mode reply : jsstring) : Callback := fun msg _ st =>
  if negb (authorized msg) then (st, []) else
  (mkState mode (availableModels st) (currentModelId st),
   Utils.sendMessage (chat_id msg) reply).

Definition on_prompt_mode : Callback :=
  on_mode (lit "prompt") (lit "Switched to Prompt Translation Mode.").
Definition on_commit_mode : Callback :=
  on_mode (lit "commit") (lit "Switched to Commit Translation Mode.").
Definition on_chat_mode : Callback :=
  on_mode (lit "chat") (lit "Switched to General Chat Mode.").

Definition model_lines (st : State) (model : Model) : jsstring :=
  let isCurrent :=
    if str_eqb (id model) (currentModelId st) then lit " (Current)" else [] in
  lit "- " ++ str_or (name model) (id model) ++ isCurrent ++ nl
  ++ lit "  ID: " ++ id model ++ nl
  ++ (if is_empty (notes model) then []
      else lit "  Notes: " ++ notes model ++ nl).

Definition modelListText (st : State) : jsstring :=
  (match availableModels st with
   | _ :: _ =>
       lit "Available Models:" ++ nl
       ++ List.concat (map (model_lines st) (availableModels st))
   | [] =>
       lit "No models loaded. Please check models.json or the .env configuration."
   end)
  ++ nl ++ lit "Current Model ID: " ++ currentModelId st.

Definition on_list_models : Callback := fun msg _ st =>
  if negb (authorized msg) then (st, []) else
  (st, Utils.sendMessage (chat_id msg) (modelListText st)).

Definition model_not_found (requestedModelId : jsstring) : jsstring :=
  lit "Error: Model ID " ++ dq ++ requestedModelId ++ dq
  ++ lit " not found. Use /list_models to see available models.".

Definition on_set_model : Callback := fun msg capture st =>
  if negb (authorized msg) then (st, []) else
  let requestedModelId := trim capture in
  let foundModel :=
    find (fun model => str_eqb (id model) requestedModelId)
         (availableModels st) in
  match foundModel with
  | Some model =>
      let st' := mkState (currentMode st) (availableModels st) (id model) in
      (st', Utils.sendMessage (chat_id msg)
              (lit "Switched model to: " ++ currentModelId st'))
  | None =>
      (st, Utils.sendMessage (chat_id msg) (model_not_found requestedModelId))
  end.

(** The [onText] registrations, in the order of the file. *)
Definition registrations : list ((jsstring -> option jsstring) * Callback) :=
  [ (re_start, on_start);
    (re_exact (lit "/help"), on_help);
    (re_exact (lit "/prompt_mode"), on_prompt_mode);
    (re_exact (lit "/commit_mode"), on_commit_mode);
    (re_exact (lit "/chat_mode"), on_chat_mode);
    (re_exact (lit "/list_models"), on_list_models);
    (re_set_model, on_set_model) ].

(** *** The general ['message'] handler *)

Definition commands : list jsstring :=
  [ lit "/start"; lit "/help"; lit "/prompt_mode"; lit "/commit_mode";
    lit "/chat_mode"; lit "/list_models" ].

(** Steps 1 to 3: the text the handler goes on to process, if any. *)
Definition payload (msg : Msg) : option jsstring :=
  if negb (authorized msg) then None else
  match text msg with
  | None => None
  | Some t =>
      if is_empty t then None
      else if includes commands t || startsWith (lit "/set_model ") t
      then None
      else Some t
  end.

Definition NO_RESPONSE : jsstring :=
  lit "Sorry, an error occurred and no response was generated.".
Definition REQUEST_ERROR : jsstring :=
  lit "Sorry, an error occurred processing your request.".

(** The acknowledgment, sent before the handler first suspends. *)
Definition acknowledge (st : State) (msg : Msg) : list Event :=
  match payload msg with
  | None => []
  | Some _ =>
      [SendMessage (chat_id msg)
         (lit "Processing in " ++ currentMode st ++ lit " mode with "
          ++ currentModelId st ++ lit "...")]
  end.

(** "Edit the acknowledgment message with the result or error". *)
Definition relay (w : World) (chatId : Z) (aiResponse : jsstring)
  : list Event :=
  match ack w with
  | Some message_id =>
      if N.eqb message_id 0
      then Utils.sendMessage chatId (str_or aiResponse REQUEST_ERROR)
      else
        EditMessageText (str_or aiResponse NO_RESPONSE) chatId message_id
        :: (if edit_ok w then []
            else Utils.sendMessage chatId (str_or aiResponse REQUEST_ERROR))
  | None => Utils.sendMessage chatId (str_or aiResponse REQUEST_ERROR)
  end.

(** The handler once the acknowledgment is settled: the API call, then the
    relay.  The variables are read again here. *)
Definition respond (w : World) (st : State) (msg : Msg) : list Event :=
  match payload msg with
  | None => []
  | Some t =>
      let (requests, aiResponse) :=
        Api.callDeepSeekAPI (fetch w) t (currentMode st) (currentModelId st)
                            (deepSeekApiEndpoint cfg) (deepSeekApiKey cfg) in
      map HttpPost requests ++ relay w (chat_id msg) aiResponse
  end.

(** *** The library's dispatch of one update

    [node-telegram-bot-api] emits ['message'] first; the handler above
    runs up to its first [await].  Then, when the message has a text, every
    registered pattern is tried in order and each callback whose pattern
    matches is called.  The suspended handler resumes afterwards. *)

Fixpoint run_callbacks (regs : list ((jsstring -> option jsstring) * Callback))
    (msg : Msg) (t : jsstring) (st : State) : State * list Event :=
  match regs with
  | [] => (st, [])
  | (re, callback) :: rest =>
      match re t with
      | None => run_callbacks rest msg t st
      | Some capture =>
          let (st1, ev1) := callback msg capture st in
          let (st2, ev2) := run_callbacks rest msg t st1 in
          (st2, ev1 ++ ev2)
      end
  end.

Definition onText (msg : Msg) (st : State) : State * list Event :=
  match text msg with
  | None => (st, [])
  | Some t =>
      if is_empty t then (st, []) else run_callbacks registrations msg t st
  end.

Definition processUpdate (w : World) (st : State) (msg : Msg)
  : State * list Event :=
  let (st', replies) := onText msg st in
  (st', acknowledge st msg ++ replies ++ respond w st' msg).

(** A run of the bot: the messages are handled one after the other. *)
Fixpoint run (st : State) (inbox : list (World * Msg)) : State * list Event :=
  match inbox with
  | [] => (st, [])
  | (w, msg) :: rest =>
      let (st1, ev1) := processUpdate w st msg in
      let (st2, ev2) := run st1 rest in
      (st2, ev1 ++ ev2)
  end.

End Handlers.

End Bot.

(* ================================================================= *)
(** ** A runtime to run the examples on *)

Module Sample.

(** A reader for the JSON the examples use: objects, arrays, strings with
    the one-letter escapes, and the three literals.  Numbers and [\u]
    escapes are not read (the reader reports a syntax error on them). *)

Definition is_json_space (c : char) : bool :=
  (N.eqb c 32 || N.eqb c 9 || N.eqb c 10 || N.eqb c 13)%N.

Definition skip_space (s : jsstring) : jsstring := drop_while is_json_space s.

Definition unescape (c : char) : option char :=
  if N.eqb c 34 then Some 34%N
  else if N.eqb c 92 then Some 92%N
  else if N.eqb c 47 then Some 47%N
  else if N.eqb c 98 then Some 8%N
  else if N.eqb c 102 then Some 12%N
  else if N.eqb c 110 then Some 10%N
  else if N.eqb c 114 then Some 13%N
  else if N.eqb c 116 then Some 9%N
  else None.

(** The rest of a string literal, after its opening quote. *)
Fixpoint read_string (s acc : jsstring) : option (jsstring * jsstring) :=
  match s with
  | [] => None
  | c :: r =>
      if N.eqb c 34 then Some (rev acc, r)
      else if N.eqb c 92 then
        match r with
        | e :: r' =>
            match unescape e with
            | Some x => read_string r' (x :: acc)
            | None => None
            end
        | [] => None
        end
      else if N.ltb c 32 then None
      else read_string r (c :: acc)
  end.

(** A later member overrides an earlier one of the same name. *)
Definition add_member (k : jsstring) (v : JsValue)
    (later : list (jsstring * JsValue)) : list (jsstring * JsValue) :=
  match lookup k later with
  | Some _ => later
  | None => (k, v) :: later
  end.

Fixpoint read_value (fuel : nat) (s : jsstring) {struct fuel}
  : option (JsValue * jsstring) :=
  match fuel with
  | O => None
  | S n =>
      match skip_space s with
      | [] => None
      | c :: r =>
          if N.eqb c 34 then
            match read_string r [] with
            | Some (str, r') => Some (JString str, r')
            | None => None
            end
          else if N.eqb c 123 then
            match skip_space r with
            | [] => None
            | c' :: r' =>
                if N.eqb c' 125 then Some (JObject [], r')
                else match read_members n r with
                     | Some (ps, r'') => Some (JObject ps, r'')
                     | None => None
                     end
            end
          else if N.eqb c 91 then
            match skip_space r with
            | [] => None
            | c' :: r' =>
                if N.eqb c' 93 then Some (JArray [], r')
                else match read_elements n r with
                     | Some (vs, r'') => Some (JArray vs, r'')
                     | None => None
                     end
            end
          else if startsWith (lit "true") (c :: r)
          then Some (JBool true, skipn 3 r)
          else if startsWith (lit "false") (c :: r)
          then Some (JBool false, skipn 4 r)
          else if startsWith (lit "null") (c :: r)
          then Some (JNull, skipn 3 r)
          else None
      end
  end
with read_members (fuel : nat) (s : jsstring) {struct fuel}
  : option (list (jsstring * JsValue) * jsstring) :=
  match fuel with
  | O => None
  | S n =>
      match skip_space s with
      | [] => None
      | q :: r =>
          if negb (N.eqb q 34) then None else
          match read_string r [] with
          | None => None
          | Some (k, r1) =>
              match skip_space r1 with
              | [] => None
              | colon :: r2 =>
                  if negb (N.eqb colon 58) then None else
                  match read_value n r2 with
                  | None => None
                  | Some (v, r3) =>
                      match skip_space r3 with
                      | [] => None
                      | sep :: r4 =>
                          if N.eqb sep 125 then Some ([(k, v)], r4)
                          else if N.eqb sep 44 then
                            match read_members n r4 with
                            | Some (ps, r5) => Some (add_member k v ps, r5)
                            | None => None
                            end
                          else None
                      end
                  end
              end
          end
      end
  end
with read_elements (fuel : nat) (s : jsstring) {struct fuel}
  : option (list JsValue * jsstring) :=
  match fuel with
  | O => None
  | S n =>
      match read_value n s with
      | None => None
      | Some (v, r) =>
          match skip_space r with
          | [] => None
          | sep :: r' =>
              if N.eqb sep 93 then Some ([v], r')
              else if N.eqb sep 44 then
                match read_elements n r' with
                | Some (vs, r'') => Some (v :: vs, r'')
                | None => None
                end
              else None
          end
      end
  end.

Definition SyntaxError : JsError :=
  mkError (lit "SyntaxError") (lit "Unexpected token in JSON").

Definition parse (s : jsstring) : Completion JsValue :=
  match read_value (S (List.length s)) s with
  | Some (v, rest) =>
      if is_empty (skip_space rest) then Normal v else Throw SyntaxError
  | None => Throw SyntaxError
  end.

#[local] Instance runtime : Runtime := {|
  JSON_parse := parse;
  Number_toString := fun _ => lit "NaN";
  StringToNumber := fun _ => PrimFloat.nan;
  TypeError_message := fun _ k =>
    lit "Cannot read properties of undefined (reading '" ++ k ++ lit "')"
|}.

(** The configuration, catalogue and worlds of the examples. *)
Definition cfg : Bot.Config :=
  Bot.mkConfig (lit "bot-token") (Some 42%Z) (lit "api-key")
               (lit "https://openrouter.ai/api/v1/chat/completions")
               (lit "deepseek/deepseek-chat-v3-0324:free").

Definition models : list Bot.Model :=
  [ Bot.mkModel (lit "deepseek/deepseek-chat-v3-0324:free")
                (lit "DeepSeek V3 (Default)") (lit "The default model from .env");
    Bot.mkModel (lit "qwen/qwen3-8b:free") (lit "Qwen3 8B")
                (lit "Another free model") ].

Definition st0 : Bot.State :=
  Bot.mkState (lit "prompt") models (lit "deepseek/deepseek-chat-v3-0324:free").

(** A catalogue with an entry whose id is empty, and the state start-up
    reaches with it. *)
Definition models_blank_id : list Bot.Model :=
  models ++ [ Bot.mkModel [] (lit "Unnamed") [] ].

Definition st_blank_id : Bot.State :=
  Bot.mkState (lit "prompt") models_blank_id
              (lit "deepseek/deepseek-chat-v3-0324:free").

(** A reply of the endpoint with one choice. *)
Definition reply_body : jsstring :=
  lit "{" ++ dq ++ lit "choices" ++ dq ++ lit ":[{" ++ dq ++ lit "message" ++ dq
  ++ lit ":{" ++ dq ++ lit "content" ++ dq ++ lit ":" ++ dq ++ lit "Hello there"
  ++ dq ++ lit "}}]}".

Definition answering (st : N) (b : jsstring) : Fetch :=
  fun _ => Normal (mkResponse st [] (Normal b)).

(** The endpoint answers 200, the acknowledgment is message 7, edits pass. *)
Definition world_ok : World := mkWorld (answering 200 reply_body) (Some 7%N) true.
(** As [world_ok], but the edit of the acknowledgment is refused. *)
Definition world_no_edit : World :=
  mkWorld (answering 200 reply_body) (Some 7%N) false.

Definition from (user : Z) (t : jsstring) : Msg := mkMsg 1000%Z user (Some t).

End Sample.


(* ================================================================= *)
(** ** [bot.js]: the handler of polling errors *)

Module BotProcess.

(** [hay.includes(needle)] on strings. *)
Fixpoint str_includes (needle hay : jsstring) : bool :=
  startsWith needle hay
  || match hay with
     | [] => false
     | _ :: rest => str_includes needle rest
     end.

(** The ['polling_error'] handler, from [error.code] (absent on errors
    that carry none) and [error.message]: [true] when it ends the process
    with [process.exit(1)], [false] when polling goes on. *)
Definition on_polling_error (code : option jsstring) (message : jsstring)
  : bool :=
  if str_includes (lit "ETIMEDOUT") message
     || str_includes (lit "ECONNRESET") message
  then false
  else match code with
       | Some c => str_eqb c (lit "EFATAL")
       | None => false
       end.

End BotProcess.

(* ================================================================= *)
(** ** The first [bot.js]: two modes, one model, everything in one file *)

Module BotV1.

Record Config := mkConfig {
  token : jsstring;
  authorizedUserId : option Z;
  deepSeekApiKey : jsstring;
  deepSeekApiEndpoint : jsstring;
  deepSeekModel : jsstring
}.

(** The calls on the outside world; this version asks Telegram to render
    Markdown in most of them ([markdown] is [parse_mode: 'Markdown']). *)
Inductive Call : Type :=
| Send (chatId : Z) (body : jsstring) (markdown : bool)
| Edit (body : jsstring) (chatId : Z) (message_id : N) (markdown : bool)
| Post (req : Request).

Section Handlers.
Variable cfg : Config.
Context {R : Runtime}.

Definition isAuthorized (userId : Z) : bool :=
  match authorizedUserId cfg with
  | None => false
  | Some a => Z.eqb userId a
  end.

Definition sendMessage (chatId : Z) (body : jsstring) : list Call :=
  if is_empty (trim body) then [] else [Send chatId body true].

(** [callDeepSeekAPI(inputText, mode)]: the prefix starts out as the one of
    prompt mode, and the model, endpoint and key are the configured ones.
    From the [fetch] on, the text is the one of [app/api.js]. *)
Definition callDeepSeekAPI (fetch : Fetch) (inputText mode : jsstring)
  : list Request * jsstring :=
  let modPrefix := Adapter.PROMPT_PREFIX in
  let userPrompt := trim inputText in
  if is_empty userPrompt then ([], lit "Input cannot be empty.") else
  match
    (if str_eqb mode (lit "prompt") then Some (Adapter.PROMPT_SYSTEM, modPrefix)
     else if str_eqb mode (lit "commit")
     then Some (Adapter.COMMIT_SYSTEM, Adapter.COMMIT_PREFIX)
     else None)
  with
  | None => ([], lit "Internal error: Invalid processing mode.")
  | Some (systemPrompt, modPrefix) =>
      let messages :=
        [ mkMessage (lit "system") (Flat systemPrompt);
          mkMessage (lit "user") (Flat (modPrefix ++ userPrompt)) ] in
      let req := mkRequest (deepSeekApiEndpoint cfg)
                           (lit "Bearer " ++ deepSeekApiKey cfg)
                           (deepSeekModel cfg) messages in
      ([req], Adapter.exchange fetch req)
  end.

(** The one variable of this version is [currentMode]. *)
Definition Callback := Msg -> jsstring -> jsstring -> jsstring * list Call.

Definition on_start : Callback := fun msg _ currentMode =>
  if isAuthorized (from_id msg)
  then (currentMode, sendMessage (chat_id msg) (lit "You are authorized."))
  else (currentMode,
        [Send (chat_id msg)
           (lit "User ID `" ++ decimal_Z (from_id msg)
            ++ lit "` is not authorized to use this bot.") true]).

Definition helpText (currentMode : jsstring) : jsstring :=
  lit "*Available Commands:*" ++ nl
  ++ lit "/help - Show this help message." ++ nl
  ++ lit "/prompt\_mode - Switch to Prompt Translation Mode. Input will be translated into English suitable for AI prompts." ++ nl
  ++ lit "/commit\_mode - Switch to Commit Translation Mode. Input will be translated into a `git commit -m "
  ++ dq ++ lit "..." ++ dq ++ lit "` format, with possible alternatives." ++ nl
  ++ nl
  ++ lit "*Current Mode:* `" ++ currentMode ++ lit "` (Mode: "
  ++ (if str_eqb currentMode (lit "prompt") then lit "Prompt Translation"
      else lit "Commit Translation")
  ++ lit ")" ++ nl
  ++ nl
  ++ lit "Simply send me any text message, and I will process it according to the current mode." ++ nl
  ++ lit "I only respond to text messages and the exact commands listed above.".

Definition on_help : Callback := fun msg _ currentMode =>
  if negb (isAuthorized (from_id msg)) then (currentMode, []) else
  (currentMode, sendMessage (chat_id msg) (helpText currentMode)).

Definition on_mode (mode reply : jsstring) : Callback := fun msg _ currentMode =>
  if negb (isAuthorized (from_id msg)) then (currentMode, []) else
  (mode, sendMessage (chat_id msg) reply).

Definition registrations : list ((jsstring -> option jsstring) * Callback) :=
  [ (Bot.re_start, on_start);
    (Bot.re_exact (lit "/help"), on_help);
    (Bot.re_exact (lit "/prompt_mode"),
     on_mode (lit "prompt") (lit "Switched to Prompt Translation Mode."));
    (Bot.re_exact (lit "/commit_mode"),
     on_mode (lit "commit") (lit "Switched to Commit Translation Mode.")) ].

(** Steps 1 to 3 of the general handler: the text it goes on to process. *)
Definition payload (msg : Msg) : option jsstring :=
  if negb (isAuthorized (from_id msg)) then None else
  match text msg with
  | None => None
  | Some t =>
      if is_empty t then None
      else if str_eqb t (lit "/help") || str_eqb t (lit "/prompt_mode")
              || str_eqb t (lit "/commit_mode")
      then None
      else Some t
  end.

Definition acknowledge (currentMode : jsstring) (msg : Msg) : list Call :=
  match payload msg with
  | None => []
  | Some _ =>
      [Send (chat_id msg)
         (lit "Processing in " ++ currentMode ++ lit " mode...") false]
  end.

(** The rest of the handler.  The [await] of the acknowledgment is not
    guarded: when that send is rejected the handler ends there. *)
Definition respond (w : World) (currentMode : jsstring) (msg : Msg)
  : list Call :=
  match payload msg with
  | None => []
  | Some t =>
      match ack w with
      | None => []
      | Some message_id =>
          let (requests, aiResponse) :=
            callDeepSeekAPI (fetch w) t currentMode in
          map Post requests
          ++ (if N.eqb message_id 0
              then sendMessage (chat_id msg)
                     (str_or aiResponse (lit "Sorry, an error occurred processing your request."))
              else
                Edit (str_or aiResponse (lit "Sorry, an error occurred and no response was generated."))
                     (chat_id msg) message_id true
                :: (if edit_ok w then []
                    else sendMessage (chat_id msg)
                           (str_or aiResponse (lit "Sorry, an error occurred processing your request."))))
      end
  end.

Fixpoint run_callbacks (regs : list ((jsstring -> option jsstring) * Callback))
    (msg : Msg) (t : jsstring) (currentMode : jsstring)
  : jsstring * list Call :=
  match regs with
  | [] => (currentMode, [])
  | (re, callback) :: rest =>
      match re t with
      | None => run_callbacks rest msg t currentMode
      | Some capture =>
          let (mode1, ev1) := callback msg capture currentMode in
          let (mode2, ev2) := run_callbacks rest msg t mode1 in
          (mode2, ev1 ++ ev2)
      end
  end.

Definition onText (msg : Msg) (currentMode : jsstring)
  : jsstring * list Call :=
  match text msg with
  | None => (currentMode, [])
  | Some t =>
      if is_empty t then (currentMode, [])
      else run_callbacks registrations msg t currentMode
  end.

(** One update, dispatched as in [Bot.processUpdate]. *)
Definition processUpdate (w : World) (currentMode : jsstring) (msg : Msg)
  : jsstring * list Call :=
  let (mode', replies) := onText msg currentMode in
  (mode', acknowledge currentMode msg ++ replies ++ respond w mode' msg).

End Handlers.

End BotV1.

(* ================================================================= *)
(** ** More worlds and messages for the examples *)

Module Cases.

(** The network is down: every request is aborted after a timeout. *)
Definition timeout : JsError := mkError (lit "AbortError") (lit "aborted").
Definition world_timeout : World :=
  mkWorld (fun _ => Throw timeout) (Some 7%N) true.

(** The acknowledgment cannot be sent. *)
Definition world_no_ack : World :=
  mkWorld (Sample.answering 200 Sample.reply_body) None true.


(** A reply whose content is padded with spaces. *)
Definition padded_body : jsstring :=
  lit "{" ++ dq ++ lit "choices" ++ dq ++ lit ":[{" ++ dq ++ lit "message" ++ dq
  ++ lit ":{" ++ dq ++ lit "content" ++ dq ++ lit ":" ++ dq ++ lit "  Hello  "
  ++ dq ++ lit "}}]}".

(** The request [callDeepSeekAPI] makes of "hi" in chat mode for model "m",
    endpoint "e" and key "k". *)
Definition hi_request : Request :=
  mkRequest (lit "e") (lit "Bearer k") (lit "m")
    [ mkMessage (lit "system") (Flat Adapter.CHAT_SYSTEM);
      mkMessage (lit "user") (Flat (lit "hi")) ].

(** The configuration of the first version. *)
Definition cfg_v1 : BotV1.Config :=
  BotV1.mkConfig (lit "bot-token") (Some 42%Z) (lit "api-key")
                 (lit "https://openrouter.ai/api/v1/chat/completions")
                 (lit "deepseek/deepseek-chat-v3-0324:free").

End Cases.

(* ================================================================= *)
(** ** Notions the statements below are phrased with *)

(** The three mode commands: token, mode and reply. *)
Definition mode_commands : list (jsstring * (jsstring * jsstring)) :=
  [ (lit "/prompt_mode",
     (lit "prompt", lit "Switched to Prompt Translation Mode."));
    (lit "/commit_mode",
     (lit "commit", lit "Switched to Commit Translation Mode."));
    (lit "/chat_mode",
     (lit "chat", lit "Switched to General Chat Mode.")) ].

(** A call that shows text to the user is [presentable] when the text is
    not blank. *)
Definition presentable (e : Event) : Prop :=
  match e with
  | SendMessage _ b => trim b <> []
  | EditMessageText b _ _ => trim b <> []
  | HttpPost _ => True
  end.


(** A string is [visible] when it starts with a character [trim] keeps:
    neither [!s] nor [s.trim() === ''] holds of it. *)
Definition visible (s : jsstring) : bool :=
  match s with
  | [] => false
  | c :: _ => negb (is_trimmed_char c)
  end.

(** The modes [mode_settings] knows are the three literals. *)
Definition recognized (mode : jsstring) : Prop :=
  mode = lit "prompt" \/ mode = lit "commit" \/ mode = lit "chat".

(** A callback is [guarded] when an unauthorized sender gets nothing from
    it. *)
Definition guarded (cfg : Bot.Config) (cb : Bot.Callback) : Prop :=
  forall msg capture st,
    Bot.authorized cfg msg = false -> cb msg capture st = (st, []).

(** The no-argument commands that are matched as a whole. *)
Definition exact_tokens : list jsstring :=
  [ lit "/help"; lit "/prompt_mode"; lit "/commit_mode"; lit "/chat_mode";
    lit "/list_models" ].

(** The ids of the catalogue. *)
Definition catalog_ids (st : Bot.State) : list jsstring :=
  map Bot.id (Bot.availableModels st).

(** The text of the acknowledgment. *)
Definition processing_notice (st : Bot.State) : jsstring :=
  lit "Processing in " ++ Bot.currentMode st ++ lit " mode with "
  ++ Bot.currentModelId st ++ lit "...".

(** A callback [keeps_model] when it leaves the catalogue and the model id
    as they are. *)
Definition keeps_model (cb : Bot.Callback) : Prop :=
  forall msg capture st,
    Bot.availableModels (fst (cb msg capture st)) = Bot.availableModels st
    /\ Bot.currentModelId (fst (cb msg capture st)) = Bot.currentModelId st.

(** The model id changed from [st] to [st'] as a successful model switch
    asked for by [msg] changes it. *)
Definition switched_by (cfg : Bot.Config) (msg : Msg) (st st' : Bot.State)
  : Prop :=
  Bot.authorized cfg msg = true
  /\ exists arg,
       text msg = Some (lit "/set_model " ++ arg)
       /\ In (trim arg) (catalog_ids st)
       /\ Bot.currentModelId st' = trim arg.

(** The error body [{"error":{"message":"rate limited"}}] and the value it
    denotes. *)
Definition rate_limited_body : jsstring :=
  lit "{" ++ dq ++ lit "error" ++ dq ++ lit ":{" ++ dq ++ lit "message" ++ dq
  ++ lit ":" ++ dq ++ lit "rate limited" ++ dq ++ lit "}}".

Definition rate_limited_json : JsValue :=
  JObject [ (lit "error",
             JObject [ (lit "message", JString (lit "rate limited")) ]) ].

(* ================================================================= *)
(** * Properties *)

(** ** Strings *)

Lemma str_eqb_eq (a b : jsstring) : str_eqb a b = true <-> a = b.
Proof.
  revert b; induction a as [|x a IH]; intros [|y b]; simpl;
    try (split; [discriminate | congruence]); [tauto|].
  rewrite andb_true_iff, N.eqb_eq, IH.
  split; [intros [-> ->]; reflexivity | intros H; injection H; auto].
Qed.

Lemma str_eqb_refl (a : jsstring) : str_eqb a a = true.
Proof. apply str_eqb_eq; reflexivity. Qed.

Lemma str_eqb_neq (a b : jsstring) : str_eqb a b = false <-> a <> b.
Proof.
  rewrite <- str_eqb_eq. destruct (str_eqb a b); split; congruence.
Qed.

Lemma startsWith_app (p s : jsstring) : startsWith p (p ++ s) = true.
Proof.
  induction p as [|x p IH]; simpl; [reflexivity|].
  rewrite N.eqb_refl; exact IH.
Qed.

Lemma startsWith_inv (p s : jsstring) :
  startsWith p s = true -> exists rest, s = p ++ rest.
Proof.
  revert s; induction p as [|x p IH]; intros s H.
  - exists s; reflexivity.
  - destruct s as [|y s]; simpl in H; [discriminate|].
    apply andb_true_iff in H as [Hxy Hp]. apply N.eqb_eq in Hxy; subst y.
    destruct (IH _ Hp) as [rest ->]. exists rest; reflexivity.
Qed.

Lemma skipn_app_exact (p s : jsstring) : skipn (List.length p) (p ++ s) = s.
Proof. induction p; simpl; auto. Qed.

Lemma is_empty_true (s : jsstring) : is_empty s = true <-> s = [].
Proof. destruct s; simpl; split; congruence. Qed.

Lemma is_empty_false (s : jsstring) : is_empty s = false <-> s <> [].
Proof. destruct s; simpl; split; congruence. Qed.

(** *** Trimming *)

Lemma drop_while_snoc (p : char -> bool) (s : jsstring) (c : char) :
  p c = false -> drop_while p (s ++ [c]) = drop_while p s ++ [c].
Proof.
  intros Hc; induction s as [|x s IH]; simpl.
  - rewrite Hc; reflexivity.
  - destruct (p x); [exact IH | reflexivity].
Qed.

Lemma drop_while_all (p : char -> bool) (s : jsstring) :
  forallb p s = true -> drop_while p s = [].
Proof.
  induction s as [|x s IH]; simpl; [reflexivity|].
  intros H; apply andb_true_iff in H as [Hx Hs]. rewrite Hx; auto.
Qed.

Lemma drop_while_nil_inv (p : char -> bool) (s : jsstring) :
  drop_while p s = [] -> forallb p s = true.
Proof.
  induction s as [|x s IH]; simpl; [reflexivity|].
  destruct (p x); [exact IH | discriminate].
Qed.

Lemma trimEnd_cons (c : char) (s : jsstring) :
  is_trimmed_char c = false -> trimEnd (c :: s) = c :: trimEnd s.
Proof.
  intros Hc; unfold trimEnd; simpl.
  rewrite drop_while_snoc by exact Hc.
  rewrite rev_app_distr; reflexivity.
Qed.

Lemma trim_cons (c : char) (s : jsstring) :
  is_trimmed_char c = false -> trim (c :: s) = c :: trimEnd s.
Proof.
  intros Hc; unfold trim, trimStart; simpl; rewrite Hc.
  apply trimEnd_cons; exact Hc.
Qed.

Lemma trim_all_blank (s : jsstring) :
  forallb is_trimmed_char s = true -> trim s = [].
Proof.
  intros H; unfold trim, trimStart. rewrite drop_while_all by exact H.
  reflexivity.
Qed.

Lemma visible_app (p s : jsstring) : visible p = true -> visible (p ++ s) = true.
Proof. destruct p; simpl; [discriminate | auto]. Qed.

Lemma visible_not_empty (s : jsstring) : visible s = true -> is_empty s = false.
Proof. destruct s; simpl; [discriminate | auto]. Qed.

Lemma visible_not_blank (s : jsstring) :
  visible s = true -> is_empty (trim s) = false.
Proof.
  destruct s as [|c s]; simpl; [discriminate|].
  intros H; apply negb_true_iff in H. rewrite trim_cons by exact H.
  reflexivity.
Qed.

Lemma drop_while_visible (s : jsstring) :
  drop_while is_trimmed_char s = [] \/
  visible (drop_while is_trimmed_char s) = true.
Proof.
  induction s as [|c s IH]; simpl; [left; reflexivity|].
  destruct (is_trimmed_char c) eqn:Hc; [exact IH|].
  right; simpl; rewrite Hc; reflexivity.
Qed.

Lemma trim_visible (s : jsstring) : trim s = [] \/ visible (trim s) = true.
Proof.
  unfold trim, trimStart.
  destruct (drop_while_visible s) as [-> | H]; [left; reflexivity|].
  destruct (drop_while is_trimmed_char s) as [|c r]; [discriminate|].
  simpl in H; apply negb_true_iff in H.
  right. rewrite trimEnd_cons by exact H. simpl; rewrite H; reflexivity.
Qed.

Lemma str_or_visible (a b : jsstring) : visible a = true -> str_or a b = a.
Proof. intros H; unfold str_or; rewrite visible_not_empty by exact H; reflexivity. Qed.

Lemma sendMessage_visible (chatId : Z) (s : jsstring) :
  visible s = true -> Utils.sendMessage chatId s = [SendMessage chatId s].
Proof.
  intros H; unfold Utils.sendMessage.
  rewrite visible_not_blank by exact H; reflexivity.
Qed.

(** *** Substrings *)

Lemma contains_here (needle post : jsstring) : contains needle (needle ++ post).
Proof. exists [], post; reflexivity. Qed.

Lemma contains_app_r (needle pre s : jsstring) :
  contains needle s -> contains needle (pre ++ s).
Proof.
  intros [a [b ->]]. exists (pre ++ a), b. rewrite app_assoc; reflexivity.
Qed.

Lemma contains_app_l (needle s post : jsstring) :
  contains needle s -> contains needle (s ++ post).
Proof.
  intros [a [b ->]]. exists a, (b ++ post).
  rewrite <- !app_assoc; reflexivity.
Qed.

(** ** The composer and the adapter *)

Section AdapterFacts.
Context {R : Runtime}.

Lemma mode_settings_recognized (mode : jsstring) :
  recognized mode ->
  exists systemPrompt modPrefix,
    Adapter.mode_settings mode = Some (systemPrompt, modPrefix)
    /\ is_empty systemPrompt = false.
Proof.
  intros [-> | [-> | ->]].
  - exists Adapter.PROMPT_SYSTEM, Adapter.PROMPT_PREFIX; split; reflexivity.
  - exists Adapter.COMMIT_SYSTEM, Adapter.COMMIT_PREFIX; split; reflexivity.
  - exists Adapter.CHAT_SYSTEM, []; split; reflexivity.
Qed.

Lemma mode_settings_inv (mode sys pre : jsstring) :
  Adapter.mode_settings mode = Some (sys, pre) -> recognized mode.
Proof.
  unfold Adapter.mode_settings, recognized.
  destruct (str_eqb mode (lit "prompt")) eqn:E1;
    [apply str_eqb_eq in E1; auto|].
  destruct (str_eqb mode (lit "commit")) eqn:E2;
    [apply str_eqb_eq in E2; auto|].
  destruct (str_eqb mode (lit "chat")) eqn:E3;
    [apply str_eqb_eq in E3; auto|].
  discriminate.
Qed.

End AdapterFacts.

Section AdapterTheorems.
Context {R : Runtime}.

Lemma exchange_http_error (fetch : Fetch) (req : Request) (resp : Response)
    (errorBody : jsstring) :
  fetch req = Normal resp -> ok resp = false -> body resp = Normal errorBody ->
  Adapter.exchange fetch req = Adapter.friendlyError (status resp) errorBody.
Proof.
  intros Hf Hok Hb. unfold Adapter.exchange.
  rewrite Hf; simpl. rewrite Hok; simpl. rewrite Hb; reflexivity.
Qed.

Lemma friendlyError_status (st : N) (errorBody : jsstring) :
  contains (decimal_N st) (Adapter.friendlyError st errorBody).
Proof.
  unfold Adapter.friendlyError.
  apply contains_app_r. apply contains_here.
Qed.

Lemma get_string_truthy (v : JsValue) (k m : jsstring) :
  get v k = Normal (JString m) -> truthy v = true.
Proof. destruct v; simpl; intros H; try discriminate; reflexivity. Qed.

Lemma error_details_message (errorBody : jsstring) (errorJson error : JsValue)
    (message : jsstring) :
  JSON_parse errorBody = Normal errorJson ->
  get errorJson (lit "error") = Normal error ->
  get error (lit "message") = Normal (JString message) ->
  Adapter.error_details errorBody =
    if is_empty message then [] else lit " Details: " ++ message.
Proof.
  intros Hp He Hm. unfold Adapter.error_details.
  rewrite Hp; cbn [bind]. rewrite He; cbn [bind].
  rewrite (get_string_truthy _ _ Hm). rewrite Hm; cbn [bind truthy ToString].
  destruct (is_empty message); reflexivity.
Qed.

Lemma friendlyError_message (st : N) (errorBody : jsstring)
    (errorJson error : JsValue) (message : jsstring) :
  JSON_parse errorBody = Normal errorJson ->
  get errorJson (lit "error") = Normal error ->
  get error (lit "message") = Normal (JString message) ->
  contains message (Adapter.friendlyError st errorBody).
Proof.
  intros Hp He Hm. unfold Adapter.friendlyError.
  rewrite (error_details_message _ Hp He Hm).
  destruct message as [|c message]; simpl is_empty; cbv iota.
  - exists [], (lit "Sorry, I encountered an API error (" ++ decimal_N st
                ++ lit ")." ++ []). reflexivity.
  - do 4 apply contains_app_r. exists [], []. rewrite app_nil_r; reflexivity.
Qed.

(** The request a call issues is answered by the exchange of the adapter. *)
Lemma call_issued (call : Fetch -> jsstring -> jsstring -> jsstring -> jsstring
                           -> jsstring -> list Request * jsstring)
    (fetch : Fetch) (inputText mode model endpoint key : jsstring)
    (req : Request) :
  call = Api.callDeepSeekAPI \/ call = ApiV2.callOpenRouterAPI ->
  fst (call fetch inputText mode model endpoint key) = [req] ->
  snd (call fetch inputText mode model endpoint key)
  = Adapter.exchange fetch req.
Proof.
  intros [-> | ->];
    unfold Api.callDeepSeekAPI, ApiV2.callOpenRouterAPI;
    destruct (is_empty (trim inputText)); simpl; try discriminate;
    destruct (Adapter.mode_settings mode) as [[sys pre]|]; simpl;
    try discriminate; intros H; injection H as <-; reflexivity.
Qed.

(** C6: a payload that trims to the empty string is answered with the fixed
    text "Input cannot be empty." whatever the mode and the model id, by
    [callOpenRouterAPI] as well as by [callDeepSeekAPI], and no HTTP request
    is issued. *)
Theorem C6_empty_input_short_circuits
    (fetch : Fetch) (inputText mode model endpoint key : jsstring) :
  trim inputText = [] ->
  ApiV2.callOpenRouterAPI fetch inputText mode model endpoint key
    = ([], lit "Input cannot be empty.")
  /\ Api.callDeepSeekAPI fetch inputText mode model endpoint key
    = ([], lit "Input cannot be empty.").
Proof.
  intros H. unfold ApiV2.callOpenRouterAPI, Api.callDeepSeekAPI.
  rewrite H; split; reflexivity.
Qed.

(** C7: for a payload that does not trim to the empty string and one of the
    three modes, [callOpenRouterAPI] issues one request; when the model id
    starts with "google/" its user message is an array holding exactly one
    text block, whose text is the mode prefix followed by the trimmed
    payload; otherwise the user message is that same text as a flat string.
    The system prompt is the same text in both shapes. *)
Theorem C7_content_variant
    (fetch : Fetch) (inputText mode model endpoint key : jsstring) :
  trim inputText <> [] -> recognized mode ->
  exists systemPrompt modPrefix,
    Adapter.mode_settings mode = Some (systemPrompt, modPrefix)
    /\ (startsWith (lit "google/") model = true ->
        fst (ApiV2.callOpenRouterAPI fetch inputText mode model endpoint key)
        = [ mkRequest endpoint (lit "Bearer " ++ key) model
              [ mkMessage (lit "system")
                  (Blocks [ mkBlock (lit "text") systemPrompt ]);
                mkMessage (lit "user")
                  (Blocks [ mkBlock (lit "text")
                              (modPrefix ++ trim inputText) ]) ] ])
    /\ (startsWith (lit "google/") model = false ->
        fst (ApiV2.callOpenRouterAPI fetch inputText mode model endpoint key)
        = [ mkRequest endpoint (lit "Bearer " ++ key) model
              [ mkMessage (lit "system") (Flat systemPrompt);
                mkMessage (lit "user")
                  (Flat (modPrefix ++ trim inputText)) ] ]).
Proof.
  intros Hne Hmode.
  destruct (mode_settings_recognized Hmode) as [sys [pre [Hset Hsys]]].
  exists sys, pre. split; [exact Hset|].
  apply is_empty_false in Hne.
  unfold ApiV2.callOpenRouterAPI. rewrite Hne, Hset. cbn [fst].
  unfold ApiV2.compose, ApiV2.buildGoogleMessages, ApiV2.buildStandardMessages.
  rewrite Hsys.
  split; intros ->; reflexivity.
Qed.

(** C8: when the request is answered with a status outside 200-299 and the
    error body is read, [callDeepSeekAPI] and [callOpenRouterAPI] return a
    string that contains the status in decimal, and that contains the
    text of [error.message] whenever the body parses to a value with that
    nested string; so status 429 with the body
    [{"error":{"message":"rate limited"}}] gives a string that contains both
    "429" and "rate limited". *)
Theorem C8_http_error_message
    (call : Fetch -> jsstring -> jsstring -> jsstring -> jsstring -> jsstring
            -> list Request * jsstring)
    (fetch : Fetch) (inputText mode model endpoint key : jsstring)
    (req : Request) (resp : Response) (errorBody : jsstring) :
  call = Api.callDeepSeekAPI \/ call = ApiV2.callOpenRouterAPI ->
  fst (call fetch inputText mode model endpoint key) = [req] ->
  fetch req = Normal resp ->
  ok resp = false ->
  body resp = Normal errorBody ->
  let result := snd (call fetch inputText mode model endpoint key) in
  contains (decimal_N (status resp)) result
  /\ (forall (errorJson error : JsValue) (message : jsstring),
        JSON_parse errorBody = Normal errorJson ->
        get errorJson (lit "error") = Normal error ->
        get error (lit "message") = Normal (JString message) ->
        contains message result)
  /\ (status resp = 429%N ->
      errorBody = rate_limited_body ->
      JSON_parse errorBody = Normal rate_limited_json ->
      contains (lit "429") result /\ contains (lit "rate limited") result).
Proof.
  intros Hcall Hreq Hf Hok Hb result.
  assert (Hres : result = Adapter.friendlyError (status resp) errorBody).
  { unfold result. rewrite (call_issued _ _ _ _ _ _ Hcall Hreq).
    apply exchange_http_error; assumption. }
  rewrite Hres. split; [apply friendlyError_status|].
  split.
  - intros errorJson error message. apply friendlyError_message.
  - intros Hst _ Hp. split.
    + rewrite Hst. change (lit "429") with (decimal_N 429).
      apply friendlyError_status.
    + apply (friendlyError_message _ _ Hp (error := JObject
               [ (lit "message", JString (lit "rate limited")) ]));
        reflexivity.
Qed.

End AdapterTheorems.

(** ** The dispatch of one message *)

Section BotTheorems.
Context {R : Runtime}.
Variable cfg : Bot.Config.

Lemma run_callbacks_none regs (msg : Msg) (t : jsstring) (st : Bot.State) :
  (forall re cb, In (re, cb) regs -> re t = None) ->
  Bot.run_callbacks regs msg t st = (st, []).
Proof.
  induction regs as [|[re cb] regs IH]; intros H; simpl; [reflexivity|].
  rewrite (H re cb) by (left; reflexivity).
  apply IH. intros re' cb' Hin. apply (H re' cb'). right; exact Hin.
Qed.

Lemma run_callbacks_skip re cb regs (msg : Msg) (t : jsstring) (st : Bot.State) :
  re t = None ->
  Bot.run_callbacks ((re, cb) :: regs) msg t st = Bot.run_callbacks regs msg t st.
Proof. intros H; simpl; rewrite H; reflexivity. Qed.

Lemma run_callbacks_app regs1 regs2 (msg : Msg) (t : jsstring) (st : Bot.State) :
  Bot.run_callbacks (regs1 ++ regs2) msg t st =
  let (st1, ev1) := Bot.run_callbacks regs1 msg t st in
  let (st2, ev2) := Bot.run_callbacks regs2 msg t st1 in
  (st2, ev1 ++ ev2).
Proof.
  revert st; induction regs1 as [|[re cb] regs1 IH]; intros st; simpl.
  - destruct (Bot.run_callbacks regs2 msg t st); reflexivity.
  - destruct (re t) as [capture|]; [|apply IH].
    destruct (cb msg capture st) as [st1 ev1]. rewrite IH.
    destruct (Bot.run_callbacks regs1 msg t st1) as [st2 ev2].
    destruct (Bot.run_callbacks regs2 msg t st2) as [st3 ev3].
    rewrite app_assoc; reflexivity.
Qed.

Lemma guarded_callbacks :
  Forall (fun rc => guarded cfg (snd rc)) (tl (Bot.registrations cfg)).
Proof.
  repeat constructor; intros msg capture st H; simpl;
    unfold Bot.on_help, Bot.on_prompt_mode, Bot.on_commit_mode,
      Bot.on_chat_mode, Bot.on_mode, Bot.on_list_models, Bot.on_set_model;
    rewrite H; reflexivity.
Qed.

Lemma run_callbacks_guarded regs (msg : Msg) (t : jsstring) (st : Bot.State) :
  Forall (fun rc => guarded cfg (snd rc)) regs ->
  Bot.authorized cfg msg = false ->
  Bot.run_callbacks regs msg t st = (st, []).
Proof.
  intros Hall Hauth; induction Hall as [|[re cb] regs Hcb _ IH]; simpl;
    [reflexivity|].
  destruct (re t) as [capture|]; [|exact IH].
  simpl in Hcb. rewrite (Hcb msg capture st Hauth), IH; reflexivity.
Qed.

Lemma payload_unauthorized (msg : Msg) :
  Bot.authorized cfg msg = false -> Bot.payload cfg msg = None.
Proof. intros H; unfold Bot.payload; rewrite H; reflexivity. Qed.

(** C2: a message from a sender who is not the authorized one, whose text
    (if it has one) does not begin with "/start", makes the bot send
    nothing, call nothing and keep its mode, catalogue and model id. *)
Theorem C2_unauthorized_is_dropped
    (w : World) (st : Bot.State) (msg : Msg) :
  Bot.authorized cfg msg = false ->
  (forall t, text msg = Some t -> startsWith (lit "/start") t = false) ->
  Bot.processUpdate cfg w st msg = (st, []).
Proof.
  intros Hauth Hstart. unfold Bot.processUpdate, Bot.onText,
    Bot.acknowledge, Bot.respond.
  rewrite (payload_unauthorized _ Hauth).
  destruct (text msg) as [t|] eqn:Ht; [|reflexivity].
  destruct (is_empty t); [reflexivity|].
  change (Bot.registrations cfg)
    with ((Bot.re_start, Bot.on_start cfg) :: tl (Bot.registrations cfg)).
  rewrite run_callbacks_skip
    by (unfold Bot.re_start; rewrite (Hstart t eq_refl); reflexivity).
  rewrite run_callbacks_guarded; [|exact guarded_callbacks|exact Hauth].
  reflexivity.
Qed.


Lemma is_empty_app_cons (p : jsstring) (c : char) (e : jsstring) :
  is_empty (p ++ c :: e) = false.
Proof. destruct p; reflexivity. Qed.

(** A message the general handler takes up: the acknowledgment, then what
    the callbacks send, then the API call and the relay. *)
Lemma processUpdate_payload (w : World) (st : Bot.State) (msg : Msg)
    (t : jsstring) (replies : list Event) :
  Bot.payload cfg msg = Some t ->
  Bot.onText cfg msg st = (st, replies) ->
  Bot.processUpdate cfg w st msg =
  (st, SendMessage (chat_id msg) (processing_notice st)
       :: replies
       ++ map HttpPost
            (fst (Api.callDeepSeekAPI (fetch w) t (Bot.currentMode st)
                    (Bot.currentModelId st) (Bot.deepSeekApiEndpoint cfg)
                    (Bot.deepSeekApiKey cfg)))
       ++ Bot.relay w (chat_id msg)
            (snd (Api.callDeepSeekAPI (fetch w) t (Bot.currentMode st)
                    (Bot.currentModelId st) (Bot.deepSeekApiEndpoint cfg)
                    (Bot.deepSeekApiKey cfg)))).
Proof.
  intros Hp Ht. unfold Bot.processUpdate. rewrite Ht.
  unfold Bot.acknowledge, Bot.respond. rewrite Hp.
  destruct (Api.callDeepSeekAPI (fetch w) t (Bot.currentMode st)
              (Bot.currentModelId st) (Bot.deepSeekApiEndpoint cfg)
              (Bot.deepSeekApiKey cfg)) as [requests aiResponse].
  reflexivity.
Qed.

(** A message the general handler leaves to the callbacks. *)
Lemma processUpdate_command (w : World) (st st' : Bot.State) (msg : Msg)
    (replies : list Event) :
  Bot.payload cfg msg = None ->
  Bot.onText cfg msg st = (st', replies) ->
  Bot.processUpdate cfg w st msg = (st', replies).
Proof.
  intros Hp Ht. unfold Bot.processUpdate. rewrite Ht.
  unfold Bot.acknowledge, Bot.respond. rewrite Hp.
  rewrite app_nil_r; reflexivity.
Qed.

(** In each registration the pattern fails on [t]. *)
Ltac no_pattern_matches :=
  let re := fresh "re" in
  let cb := fresh "cb" in
  let Hin := fresh "Hin" in
  let Heq := fresh "Heq" in
  intros re cb Hin; unfold Bot.registrations in Hin;
  cbn [In] in Hin;
  repeat (destruct Hin as [Heq | Hin];
          [injection Heq as <- <-; reflexivity|]);
  contradiction.

(** C5: when the authorized sender writes one of the tokens "/help",
    "/prompt_mode", "/commit_mode", "/chat_mode", "/list_models" with
    anything appended to it, no command callback runs (nothing is replied
    by them, mode and model stay) and the general handler takes the whole
    text as payload: it acknowledges, hands the text to [callDeepSeekAPI] and
    relays the result. *)
Theorem C5_near_miss_is_payload
    (w : World) (st : Bot.State) (msg : Msg) (tok extra : jsstring) :
  Bot.authorized cfg msg = true ->
  In tok exact_tokens ->
  extra <> [] ->
  text msg = Some (tok ++ extra) ->
  let call := Api.callDeepSeekAPI (fetch w) (tok ++ extra) (Bot.currentMode st)
                (Bot.currentModelId st) (Bot.deepSeekApiEndpoint cfg)
                (Bot.deepSeekApiKey cfg) in
  Bot.payload cfg msg = Some (tok ++ extra)
  /\ Bot.onText cfg msg st = (st, [])
  /\ Bot.processUpdate cfg w st msg =
     (st, SendMessage (chat_id msg) (processing_notice st)
          :: map HttpPost (fst call) ++ Bot.relay w (chat_id msg) (snd call)).
Proof.
  intros Hauth Htok Hextra Htext call.
  destruct extra as [|c e]; [contradiction|]. clear Hextra.
  assert (Hp : Bot.payload cfg msg = Some (tok ++ c :: e)).
  { unfold Bot.payload. rewrite Hauth, Htext, is_empty_app_cons.
    unfold exact_tokens in Htok; cbn [In] in Htok.
    repeat (destruct Htok as [<- | Htok]; [reflexivity|]). contradiction. }
  assert (Ho : Bot.onText cfg msg st = (st, [])).
  { unfold Bot.onText. rewrite Htext, is_empty_app_cons.
    apply run_callbacks_none.
    unfold exact_tokens in Htok; cbn [In] in Htok.
    repeat (destruct Htok as [<- | Htok]; [no_pattern_matches|]).
    contradiction. }
  split; [exact Hp|]. split; [exact Ho|].
  rewrite (@processUpdate_payload w st msg (tok ++ c :: e) []) by assumption.
  reflexivity.
Qed.


(** *** The model switch *)

Lemma find_id_some (x : jsstring) (models : list Bot.Model) :
  In x (map Bot.id models) ->
  exists model,
    find (fun model => str_eqb (Bot.id model) x) models = Some model
    /\ Bot.id model = x /\ In model models.
Proof.
  induction models as [|m models IH]; simpl; [contradiction|].
  destruct (str_eqb (Bot.id m) x) eqn:E.
  - intros _. exists m. apply str_eqb_eq in E. auto.
  - intros [H | H]; [apply str_eqb_neq in E; contradiction|].
    destruct (IH H) as [model [Hf [Hid Hin]]]. exists model; auto.
Qed.

Lemma find_id_none (x : jsstring) (models : list Bot.Model) :
  ~ In x (map Bot.id models) ->
  find (fun model => str_eqb (Bot.id model) x) models = None.
Proof.
  induction models as [|m models IH]; simpl; [reflexivity|].
  intros H. destruct (str_eqb (Bot.id m) x) eqn:E.
  - apply str_eqb_eq in E. exfalso; apply H; left; exact E.
  - apply IH. intros Hin; apply H; right; exact Hin.
Qed.

Lemma re_set_model_matches (arg : jsstring) :
  arg <> [] ->
  forallb (fun c => negb (is_line_terminator c)) arg = true ->
  Bot.re_set_model (lit "/set_model " ++ arg) = Some arg.
Proof.
  intros Hne Hdot. unfold Bot.re_set_model.
  rewrite startsWith_app.
  change 11 with (List.length (lit "/set_model ")).
  rewrite skipn_app_exact, Hdot.
  apply is_empty_false in Hne; rewrite Hne; reflexivity.
Qed.

Lemma payload_set_model (msg : Msg) (rest : jsstring) :
  text msg = Some (lit "/set_model " ++ rest) -> Bot.payload cfg msg = None.
Proof.
  intros Ht. unfold Bot.payload. rewrite Ht.
  destruct (Bot.authorized cfg msg); [|reflexivity].
  cbn [negb]. rewrite startsWith_app, orb_true_r.
  destruct (is_empty (lit "/set_model " ++ rest)); reflexivity.
Qed.

(** What the callbacks do with a text the [/set_model] pattern matches: the
    six patterns before it fail, and [on_set_model] gets the capture. *)
Lemma onText_set_model (st : Bot.State) (msg : Msg) (arg : jsstring) :
  text msg = Some (lit "/set_model " ++ arg) ->
  arg <> [] ->
  forallb (fun c => negb (is_line_terminator c)) arg = true ->
  Bot.onText cfg msg st = Bot.on_set_model cfg msg arg st.
Proof.
  intros Ht Hne Hdot. unfold Bot.onText. rewrite Ht.
  destruct arg as [|c e]; [contradiction|].
  rewrite is_empty_app_cons. unfold Bot.registrations.
  do 6 (rewrite run_callbacks_skip by reflexivity).
  cbn [Bot.run_callbacks].
  rewrite re_set_model_matches by assumption.
  destruct (Bot.on_set_model cfg msg (c :: e) st) as [st1 ev1].
  rewrite app_nil_r; reflexivity.
Qed.

Lemma on_set_model_found (st : Bot.State) (msg : Msg) (arg : jsstring) :
  Bot.authorized cfg msg = true ->
  In (trim arg) (catalog_ids st) ->
  Bot.on_set_model cfg msg arg st =
  (Bot.mkState (Bot.currentMode st) (Bot.availableModels st) (trim arg),
   [SendMessage (chat_id msg) (lit "Switched model to: " ++ trim arg)]).
Proof.
  intros Hauth Hin. unfold Bot.on_set_model. rewrite Hauth; cbn [negb].
  destruct (@find_id_some (trim arg) (Bot.availableModels st) Hin)
    as [model [Hf [Hid _]]].
  rewrite Hf, Hid. cbn [Bot.currentModelId].
  rewrite sendMessage_visible by reflexivity. reflexivity.
Qed.

Lemma on_set_model_missing (st : Bot.State) (msg : Msg) (arg : jsstring) :
  Bot.authorized cfg msg = true ->
  ~ In (trim arg) (catalog_ids st) ->
  Bot.on_set_model cfg msg arg st =
  (st, [SendMessage (chat_id msg) (Bot.model_not_found (trim arg))]).
Proof.
  intros Hauth Hin. unfold Bot.on_set_model. rewrite Hauth; cbn [negb].
  rewrite find_id_none by exact Hin.
  rewrite sendMessage_visible by reflexivity. reflexivity.
Qed.

(** The model switch where the pattern [/^\/set_model (.+)$/] matches, that
    is on "/set_model " followed by a non-empty argument without line
    terminator, from the authorized sender: when the trimmed argument is the
    id of a catalogue entry, the model id becomes that id and the one reply
    is "Switched model to: " followed by it; when it is not, mode, catalogue
    and model id stay and the one reply is the message that the id was not
    found and that /list_models shows the available ones. *)
Theorem model_switch_on_match
    (w : World) (st : Bot.State) (msg : Msg) (arg : jsstring) :
  Bot.authorized cfg msg = true ->
  text msg = Some (lit "/set_model " ++ arg) ->
  arg <> [] ->
  forallb (fun c => negb (is_line_terminator c)) arg = true ->
  (In (trim arg) (catalog_ids st) ->
   Bot.processUpdate cfg w st msg =
   (Bot.mkState (Bot.currentMode st) (Bot.availableModels st) (trim arg),
    [SendMessage (chat_id msg) (lit "Switched model to: " ++ trim arg)]))
  /\ (~ In (trim arg) (catalog_ids st) ->
      Bot.processUpdate cfg w st msg =
      (st, [SendMessage (chat_id msg)
              (lit "Error: Model ID " ++ dq ++ trim arg ++ dq
               ++ lit " not found. Use /list_models to see available models.")])).
Proof.
  intros Hauth Ht Hne Hdot.
  assert (Hp : Bot.payload cfg msg = None)
    by (eapply payload_set_model; exact Ht).
  assert (Ho : Bot.onText cfg msg st = Bot.on_set_model cfg msg arg st)
    by (apply onText_set_model; assumption).
  split; intros Hin; apply processUpdate_command; try exact Hp; rewrite Ho.
  - apply on_set_model_found; assumption.
  - apply on_set_model_missing; assumption.
Qed.

Lemma white_space_not_terminator (c : char) :
  is_white_space c = true -> is_line_terminator c = false.
Proof.
  intros H. unfold is_line_terminator.
  destruct (N.eqb_spec c 10) as [->|_]; [discriminate|].
  destruct (N.eqb_spec c 13) as [->|_]; [discriminate|].
  destruct (N.eqb_spec c 8232) as [->|_]; [discriminate|].
  destruct (N.eqb_spec c 8233) as [->|_]; [discriminate|].
  reflexivity.
Qed.

(** C10, as the code has it: "/set_model " followed by one or more
    white-space characters none of which is a line terminator, from the
    authorized sender, is matched by the model-switch pattern and is never
    payload; the trimmed argument is the empty string; and when no catalogue
    entry has the empty id, mode, catalogue and model id stay and the one
    reply is the not-found message for the empty id. *)
Theorem C10_blank_argument
    (w : World) (st : Bot.State) (msg : Msg) (ws : jsstring) :
  Bot.authorized cfg msg = true ->
  text msg = Some (lit "/set_model " ++ ws) ->
  ws <> [] ->
  forallb is_white_space ws = true ->
  ~ In [] (catalog_ids st) ->
  Bot.re_set_model (lit "/set_model " ++ ws) = Some ws
  /\ trim ws = []
  /\ Bot.payload cfg msg = None
  /\ Bot.processUpdate cfg w st msg =
     (st, [SendMessage (chat_id msg) (Bot.model_not_found [])]).
Proof.
  intros Hauth Ht Hne Hws Hcat.
  assert (Hdot : forallb (fun c => negb (is_line_terminator c)) ws = true).
  { apply forallb_forall. intros c Hc.
    rewrite forallb_forall in Hws.
    rewrite white_space_not_terminator by (apply Hws; exact Hc).
    reflexivity. }
  assert (Htrim : trim ws = []).
  { apply trim_all_blank. apply forallb_forall. intros c Hc.
    rewrite forallb_forall in Hws. unfold is_trimmed_char.
    rewrite (Hws c Hc); reflexivity. }
  assert (Hp : Bot.payload cfg msg = None)
    by (eapply payload_set_model; exact Ht).
  split; [apply re_set_model_matches; assumption|].
  split; [exact Htrim|]. split; [exact Hp|].
  apply processUpdate_command; [exact Hp|].
  rewrite (@onText_set_model st msg ws) by assumption.
  rewrite on_set_model_missing by (try rewrite Htrim; assumption).
  rewrite Htrim; reflexivity.
Qed.


(** *** The start command *)

Lemma run_callbacks_hit re cb regs (msg : Msg) (t capture : jsstring)
    (st st1 : Bot.State) (ev1 : list Event) :
  re t = Some capture ->
  cb msg capture st = (st1, ev1) ->
  Bot.run_callbacks regs msg t st1 = (st1, []) ->
  Bot.run_callbacks ((re, cb) :: regs) msg t st = (st1, ev1).
Proof.
  intros Hre Hcb Hrest. simpl. rewrite Hre, Hcb, Hrest, app_nil_r.
  reflexivity.
Qed.

Lemma call_issues_request (fetch : Fetch) (t mode model endpoint key : jsstring) :
  visible t = true -> recognized mode ->
  exists req,
    Api.callDeepSeekAPI fetch t mode model endpoint key
    = ([req], Adapter.exchange fetch req).
Proof.
  intros Hv Hmode. unfold Api.callDeepSeekAPI.
  rewrite (visible_not_blank _ Hv).
  destruct (mode_settings_recognized Hmode) as [sys [pre [-> _]]].
  eexists; reflexivity.
Qed.

(** The bare "/start" of the authorized sender gets the start reply and
    nothing else. *)
Lemma start_alone_short_circuits (w : World) (st : Bot.State) (msg : Msg) :
  Bot.authorized cfg msg = true ->
  text msg = Some (lit "/start") ->
  Bot.processUpdate cfg w st msg =
  (st, [SendMessage (chat_id msg) (lit "You are authorized.")]).
Proof.
  intros Hauth Ht. apply processUpdate_command.
  - unfold Bot.payload. rewrite Hauth, Ht. reflexivity.
  - unfold Bot.onText. rewrite Ht. cbn [is_empty lit].
    change (is_empty (lit "/start")) with false. cbv iota.
    unfold Bot.registrations.
    apply run_callbacks_hit with (capture := []); [reflexivity| |].
    + unfold Bot.on_start. rewrite Hauth.
      rewrite sendMessage_visible by reflexivity. reflexivity.
    + apply run_callbacks_none.
      intros re cb Hin; cbn [In] in Hin.
      repeat (destruct Hin as [Heq | Hin];
              [injection Heq as <- <-; reflexivity|]).
      contradiction.
Qed.

(** C1, what the code does: "/start" followed by anything, from the
    authorized sender and in one of the three modes, gets the start reply
    and is also taken as payload by the general handler: the acknowledgment
    is sent, a request goes to the AI endpoint and its result is relayed. *)
Theorem C1_start_with_suffix_is_also_payload
    (w : World) (st : Bot.State) (msg : Msg) (suffix : jsstring) :
  Bot.authorized cfg msg = true ->
  suffix <> [] ->
  text msg = Some (lit "/start" ++ suffix) ->
  recognized (Bot.currentMode st) ->
  exists req,
    Bot.processUpdate cfg w st msg =
    (st, SendMessage (chat_id msg) (processing_notice st)
         :: SendMessage (chat_id msg) (lit "You are authorized.")
         :: HttpPost req
         :: Bot.relay w (chat_id msg) (Adapter.exchange (fetch w) req)).
Proof.
  intros Hauth Hne Ht Hmode.
  destruct suffix as [|c e]; [contradiction|]. clear Hne.
  assert (Hp : Bot.payload cfg msg = Some (lit "/start" ++ c :: e)).
  { unfold Bot.payload. rewrite Hauth, Ht, is_empty_app_cons. reflexivity. }
  assert (Ho : Bot.onText cfg msg st
               = (st, [SendMessage (chat_id msg) (lit "You are authorized.")])).
  { unfold Bot.onText. rewrite Ht, is_empty_app_cons.
    unfold Bot.registrations.
    apply run_callbacks_hit with (capture := []); [reflexivity| |].
    - unfold Bot.on_start. rewrite Hauth.
      rewrite sendMessage_visible by reflexivity. reflexivity.
    - apply run_callbacks_none.
      intros re cb Hin; cbn [In] in Hin.
      repeat (destruct Hin as [Heq | Hin];
              [injection Heq as <- <-; reflexivity|]).
      contradiction. }
  destruct (@call_issues_request (fetch w) (lit "/start" ++ c :: e)
              (Bot.currentMode st) (Bot.currentModelId st)
              (Bot.deepSeekApiEndpoint cfg) (Bot.deepSeekApiKey cfg))
    as [req Hcall]; [reflexivity | exact Hmode |].
  exists req.
  rewrite (@processUpdate_payload w st msg (lit "/start" ++ c :: e)
             [SendMessage (chat_id msg) (lit "You are authorized.")])
    by assumption.
  rewrite Hcall. reflexivity.
Qed.


(** *** The active model stays in the catalogue *)

Lemma init_model (file : Bot.ModelsFile) (st0 : Bot.State) :
  Bot.init cfg file = Some st0 ->
  In (Bot.currentModelId st0) (catalog_ids st0)
  /\ (In (Bot.defaultModelId cfg) (catalog_ids st0) ->
      Bot.currentModelId st0 = Bot.defaultModelId cfg)
  /\ (~ In (Bot.defaultModelId cfg) (catalog_ids st0) ->
      exists first rest,
        Bot.availableModels st0 = first :: rest
        /\ Bot.currentModelId st0 = Bot.id first).
Proof.
  unfold Bot.init. destruct (Bot.config_ok cfg); [|discriminate]. cbn [negb].
  destruct file as [| |models].
  - intros H; injection H as <-. unfold catalog_ids; simpl.
    split; [auto|]. split; [auto|]. intros H; exfalso; auto.
  - intros H; injection H as <-. unfold catalog_ids; simpl.
    split; [auto|]. split; [auto|]. intros H; exfalso; auto.
  - destruct (existsb _ models) eqn:E.
    + intros H; injection H as <-. unfold catalog_ids; simpl.
      apply existsb_exists in E as [m [Hin Hid]]. apply str_eqb_eq in Hid.
      assert (In (Bot.defaultModelId cfg) (map Bot.id models))
        by (rewrite <- Hid; apply in_map; exact Hin).
      split; [assumption|]. split; [auto|]. intros Hn; contradiction.
    + destruct models as [|first rest]; [discriminate|].
      intros H; injection H as <-. unfold catalog_ids; simpl.
      split; [auto|]. split.
      * intros Hin. exfalso.
        assert (Hex : existsb
                  (fun model => str_eqb (Bot.id model) (Bot.defaultModelId cfg))
                  (first :: rest) = true); [|congruence].
        change (In (Bot.defaultModelId cfg) (map Bot.id (first :: rest)))
          in Hin.
        apply in_map_iff in Hin as [m [Hid Hm]].
        apply existsb_exists. exists m. split; [exact Hm|].
        apply str_eqb_eq; exact Hid.
      * intros _. exists first, rest; auto.
Qed.

Lemma front_keeps_model :
  Forall (fun rc => keeps_model (snd rc)) (removelast (Bot.registrations cfg)).
Proof.
  unfold Bot.registrations; cbn [removelast].
  repeat apply Forall_cons; try apply Forall_nil;
    intros msg capture st; simpl;
    unfold Bot.on_start, Bot.on_help, Bot.on_prompt_mode, Bot.on_commit_mode,
      Bot.on_chat_mode, Bot.on_mode, Bot.on_list_models;
    destruct (Bot.authorized cfg msg); split; reflexivity.
Qed.

Lemma run_callbacks_keeps_model regs (msg : Msg) (t : jsstring) (st : Bot.State) :
  Forall (fun rc => keeps_model (snd rc)) regs ->
  Bot.availableModels (fst (Bot.run_callbacks regs msg t st))
    = Bot.availableModels st
  /\ Bot.currentModelId (fst (Bot.run_callbacks regs msg t st))
    = Bot.currentModelId st.
Proof.
  intros Hall; revert st.
  induction Hall as [|[re cb] regs Hcb _ IH]; intros st; simpl; [auto|].
  destruct (re t) as [capture|]; [|apply IH].
  specialize (Hcb msg capture st); simpl in Hcb.
  destruct (cb msg capture st) as [st1 ev1]; simpl in Hcb.
  specialize (IH st1).
  destruct (Bot.run_callbacks regs msg t st1) as [st2 ev2]; simpl in *.
  destruct Hcb as [H1 H2], IH as [H3 H4]; split; congruence.
Qed.

Lemma re_set_model_inv (t arg : jsstring) :
  Bot.re_set_model t = Some arg -> t = lit "/set_model " ++ arg.
Proof.
  unfold Bot.re_set_model.
  destruct (startsWith (lit "/set_model ") t) eqn:E; [|discriminate].
  apply startsWith_inv in E as [rest ->].
  change 11 with (List.length (lit "/set_model ")).
  rewrite skipn_app_exact.
  destruct (negb (is_empty rest) && _); [|discriminate].
  intros H; injection H as ->; reflexivity.
Qed.

Lemma on_set_model_model (msg : Msg) (capture : jsstring) (st : Bot.State) :
  Bot.availableModels (fst (Bot.on_set_model cfg msg capture st))
    = Bot.availableModels st
  /\ (Bot.currentModelId (fst (Bot.on_set_model cfg msg capture st))
        = Bot.currentModelId st
      \/ (Bot.authorized cfg msg = true
          /\ In (trim capture) (catalog_ids st)
          /\ Bot.currentModelId (fst (Bot.on_set_model cfg msg capture st))
             = trim capture)).
Proof.
  unfold Bot.on_set_model.
  destruct (Bot.authorized cfg msg); cbn [negb fst]; [|auto].
  destruct (find _ (Bot.availableModels st)) as [model|] eqn:Hf;
    cbn [fst Bot.availableModels Bot.currentModelId]; [|auto].
  apply find_some in Hf as [Hin Hid]. apply str_eqb_eq in Hid.
  split; [reflexivity|]. right. split; [reflexivity|].
  split; [|exact Hid].
  rewrite <- Hid. unfold catalog_ids. apply in_map; exact Hin.
Qed.

Lemma onText_model (msg : Msg) (st : Bot.State) :
  Bot.availableModels (fst (Bot.onText cfg msg st)) = Bot.availableModels st
  /\ (Bot.currentModelId (fst (Bot.onText cfg msg st)) = Bot.currentModelId st
      \/ switched_by cfg msg st (fst (Bot.onText cfg msg st))).
Proof.
  unfold Bot.onText.
  destruct (text msg) as [t|] eqn:Ht; [|auto].
  destruct (is_empty t); [auto|].
  change (Bot.registrations cfg)
    with (removelast (Bot.registrations cfg)
          ++ [(Bot.re_set_model, Bot.on_set_model cfg)]).
  rewrite run_callbacks_app.
  pose proof (@run_callbacks_keeps_model (removelast (Bot.registrations cfg))
                msg t st front_keeps_model) as [Hm Hid].
  destruct (Bot.run_callbacks (removelast (Bot.registrations cfg)) msg t st)
    as [st1 ev1]; simpl in Hm, Hid.
  cbn [Bot.run_callbacks].
  destruct (Bot.re_set_model t) as [capture|] eqn:Hre; [|simpl; auto].
  pose proof (on_set_model_model msg capture st1) as [Hm2 Hid2].
  destruct (Bot.on_set_model cfg msg capture st1) as [st2 ev2].
  cbn [fst] in *. split; [congruence|].
  destruct Hid2 as [Hsame | [Hauth [Hin Hnew]]]; [left; congruence|].
  right. split; [exact Hauth|]. exists capture.
  apply re_set_model_inv in Hre. subst t.
  split; [exact Ht|]. split; [|exact Hnew].
  unfold catalog_ids in *. rewrite <- Hm; exact Hin.
Qed.

Lemma processUpdate_state (w : World) (st : Bot.State) (msg : Msg) :
  fst (Bot.processUpdate cfg w st msg) = fst (Bot.onText cfg msg st).
Proof.
  unfold Bot.processUpdate. destruct (Bot.onText cfg msg st); reflexivity.
Qed.

Lemma processUpdate_model (w : World) (st : Bot.State) (msg : Msg) :
  In (Bot.currentModelId st) (catalog_ids st) ->
  Bot.availableModels (fst (Bot.processUpdate cfg w st msg))
    = Bot.availableModels st
  /\ In (Bot.currentModelId (fst (Bot.processUpdate cfg w st msg)))
        (catalog_ids (fst (Bot.processUpdate cfg w st msg))).
Proof.
  intros Hinv. rewrite processUpdate_state.
  destruct (onText_model msg st) as [Hm [Hid | [_ [arg [_ [Hin Hnew]]]]]];
    split; try exact Hm; unfold catalog_ids in *; rewrite Hm.
  - rewrite Hid; exact Hinv.
  - rewrite Hnew; exact Hin.
Qed.

Lemma run_model (inbox : list (World * Msg)) (st : Bot.State) :
  In (Bot.currentModelId st) (catalog_ids st) ->
  Bot.availableModels (fst (Bot.run cfg st inbox)) = Bot.availableModels st
  /\ In (Bot.currentModelId (fst (Bot.run cfg st inbox)))
        (catalog_ids (fst (Bot.run cfg st inbox))).
Proof.
  revert st; induction inbox as [|[w msg] inbox IH]; intros st Hinv; simpl;
    [auto|].
  destruct (@processUpdate_model w st msg Hinv) as [Hm Hinv1].
  destruct (Bot.processUpdate cfg w st msg) as [st1 ev1]; simpl in Hm, Hinv1.
  destruct (IH st1 Hinv1) as [Hm2 Hinv2].
  destruct (Bot.run cfg st1 inbox) as [st2 ev2]; simpl in *.
  split; [congruence | exact Hinv2].
Qed.

(** C3: start-up sets the model id to the configured default when the
    catalogue has it and to the first entry otherwise; in every state the
    bot reaches from there, whatever messages arrive, the catalogue is the
    one loaded and the model id is the id of one of its entries; and a
    message changes the model id only as a model switch from the authorized
    sender whose trimmed argument is a catalogue id, to that id. *)
Theorem C3_active_model_in_catalog
    (file : Bot.ModelsFile) (st0 : Bot.State) (inbox : list (World * Msg)) :
  Bot.init cfg file = Some st0 ->
  let st := fst (Bot.run cfg st0 inbox) in
  (Bot.availableModels st = Bot.availableModels st0
   /\ In (Bot.currentModelId st) (catalog_ids st))
  /\ ((In (Bot.defaultModelId cfg) (catalog_ids st0) ->
       Bot.currentModelId st0 = Bot.defaultModelId cfg)
      /\ (~ In (Bot.defaultModelId cfg) (catalog_ids st0) ->
          exists first rest,
            Bot.availableModels st0 = first :: rest
            /\ Bot.currentModelId st0 = Bot.id first))
  /\ (forall (w : World) (msg : Msg),
        Bot.currentModelId (fst (Bot.processUpdate cfg w st msg))
          <> Bot.currentModelId st ->
        switched_by cfg msg st (fst (Bot.processUpdate cfg w st msg))).
Proof.
  intros Hinit st.
  destruct (@init_model file st0 Hinit) as [Hinv0 Hdefault].
  split; [apply run_model; exact Hinv0|].
  split; [exact Hdefault|].
  intros w msg Hchg. rewrite processUpdate_state in *.
  destruct (onText_model msg st) as [_ [Hsame | Hsw]];
    [contradiction | exact Hsw].
Qed.


(** *** The relay *)

Lemma on_catch_visible (error : JsError) :
  visible (Adapter.on_catch error) = true.
Proof.
  unfold Adapter.on_catch. destruct (str_eqb _ _); reflexivity.
Qed.

Lemma exchange_visible (fetch : Fetch) (req : Request) :
  visible (Adapter.exchange fetch req) = true.
Proof.
  unfold Adapter.exchange.
  destruct (fetch req) as [response|e]; cbn [bind]; [|apply on_catch_visible].
  destruct (ok response); cbn [negb].
  - unfold json. destruct (body response) as [b|e]; cbn [bind];
      [|apply on_catch_visible].
    destruct (JSON_parse b) as [data|e]; cbn [bind]; [|apply on_catch_visible].
    destruct (Adapter.choice_content data) as [[raw|]|e]; cbn [bind];
      [ | reflexivity | apply on_catch_visible].
    destruct (trim_visible raw) as [-> | Hv]; [reflexivity|].
    rewrite str_or_visible by exact Hv. exact Hv.
  - destruct (body response) as [b|e]; cbn [bind]; [|apply on_catch_visible].
    reflexivity.
Qed.

(** Whatever happens, [callDeepSeekAPI] returns a text that is not blank. *)
Lemma callDeepSeekAPI_visible (fetch : Fetch)
    (t mode model endpoint key : jsstring) :
  visible (snd (Api.callDeepSeekAPI fetch t mode model endpoint key)) = true.
Proof.
  unfold Api.callDeepSeekAPI.
  destruct (is_empty (trim t)); [reflexivity|].
  destruct (Adapter.mode_settings mode) as [[sys pre]|]; [|reflexivity].
  apply exchange_visible.
Qed.

(** C9: for a message taken as payload whose acknowledgment was sent (it has
    a message id), once [callDeepSeekAPI] has returned: the handler edits
    the acknowledgment to the result, or to "Sorry, an error occurred and no
    response was generated." should the result be empty; and when the edit
    fails it sends a new message with the very text of the edit. *)
Theorem C9_edit_then_fallback
    (w : World) (st : Bot.State) (msg : Msg) (t : jsstring) (message_id : N) :
  Bot.payload cfg msg = Some t ->
  ack w = Some message_id ->
  message_id <> 0%N ->
  let call := Api.callDeepSeekAPI (fetch w) t (Bot.currentMode st)
                (Bot.currentModelId st) (Bot.deepSeekApiEndpoint cfg)
                (Bot.deepSeekApiKey cfg) in
  let final :=
    if is_empty (snd call)
    then lit "Sorry, an error occurred and no response was generated."
    else snd call in
  (forall aiResponse, exists fallback,
      Bot.relay w (chat_id msg) aiResponse =
      EditMessageText
        (if is_empty aiResponse
         then lit "Sorry, an error occurred and no response was generated."
         else aiResponse)
        (chat_id msg) message_id
      :: fallback)
  /\ Bot.respond cfg w st msg =
     map HttpPost (fst call)
     ++ EditMessageText final (chat_id msg) message_id
     :: (if edit_ok w then [] else [SendMessage (chat_id msg) final]).
Proof.
  intros Hp Hack Hid call final.
  apply N.eqb_neq in Hid.
  split.
  - intros aiResponse. unfold Bot.relay. rewrite Hack, Hid.
    eexists; reflexivity.
  - unfold Bot.respond. rewrite Hp. fold call.
    pose proof (callDeepSeekAPI_visible (fetch w) t (Bot.currentMode st)
                  (Bot.currentModelId st) (Bot.deepSeekApiEndpoint cfg)
                  (Bot.deepSeekApiKey cfg)) as Hv.
    fold call in Hv. unfold final.
    destruct call as [requests aiResponse]; cbn [fst snd] in *.
    unfold Bot.relay. rewrite Hack, Hid.
    rewrite !str_or_visible by exact Hv.
    rewrite (visible_not_empty _ Hv).
    rewrite sendMessage_visible by exact Hv. reflexivity.
Qed.

End BotTheorems.

(* ================================================================= *)
(** * The statements at work on concrete messages *)

(** The authorized user (42) writes "/start abc": the start reply is sent,
    and the text is also acknowledged and sent to the AI endpoint. *)
Lemma C1_start_abc :
  Bot.authorized Sample.cfg (Sample.from 42 (lit "/start abc")) = true
  /\ lit " abc" <> []
  /\ recognized (Bot.currentMode Sample.st0)
  /\ exists req,
       Bot.processUpdate (R := Sample.runtime) Sample.cfg Sample.world_ok
         Sample.st0 (Sample.from 42 (lit "/start abc")) =
       (Sample.st0,
        SendMessage 1000 (processing_notice Sample.st0)
        :: SendMessage 1000 (lit "You are authorized.")
        :: HttpPost req
        :: Bot.relay Sample.world_ok 1000
             (Adapter.exchange (R := Sample.runtime)
                (fetch Sample.world_ok) req)).
Proof.
  split; [reflexivity|]. split; [discriminate|].
  split; [left; reflexivity|].
  apply (@C1_start_with_suffix_is_also_payload Sample.runtime Sample.cfg
           Sample.world_ok Sample.st0 (Sample.from 42 (lit "/start abc"))
           (lit " abc"));
    [reflexivity | discriminate | reflexivity | left; reflexivity].
Defined.

(** Somebody else (7) writes "/help": nothing happens. *)
Lemma C2_stranger_help :
  Bot.authorized Sample.cfg (Sample.from 7 (lit "/help")) = false
  /\ startsWith (lit "/start") (lit "/help") = false
  /\ Bot.processUpdate (R := Sample.runtime) Sample.cfg Sample.world_ok
       Sample.st0 (Sample.from 7 (lit "/help")) = (Sample.st0, []).
Proof.
  split; [reflexivity|]. split; [reflexivity|].
  apply (@C2_unauthorized_is_dropped Sample.runtime Sample.cfg
           Sample.world_ok Sample.st0 (Sample.from 7 (lit "/help")));
    [reflexivity|].
  intros t H; injection H as <-; reflexivity.
Defined.

(** After a switch to the second model and a chat message the model id is
    still one of the catalogue. *)
Lemma C3_after_two_messages :
  Bot.init Sample.cfg (Bot.Parsed Sample.models) = Some Sample.st0
  /\ In (Bot.currentModelId
           (fst (Bot.run (R := Sample.runtime) Sample.cfg Sample.st0
                   [ (Sample.world_ok,
                      Sample.from 42 (lit "/set_model qwen/qwen3-8b:free"));
                     (Sample.world_ok, Sample.from 42 (lit "hello")) ])))
        (map Bot.id Sample.models).
Proof.
  split; [reflexivity|].
  exact (proj2 (proj1 (@C3_active_model_in_catalog Sample.runtime Sample.cfg
                         (Bot.Parsed Sample.models) Sample.st0
                         [ (Sample.world_ok,
                            Sample.from 42 (lit "/set_model qwen/qwen3-8b:free"));
                           (Sample.world_ok, Sample.from 42 (lit "hello")) ]
                         eq_refl))).
Defined.

(** "/set_model  qwen/qwen3-8b:free " (padded argument) switches to the
    second model of the catalogue. *)
Lemma switch_to_qwen :
  Bot.authorized Sample.cfg
    (Sample.from 42 (lit "/set_model " ++ lit " qwen/qwen3-8b:free ")) = true
  /\ In (trim (lit " qwen/qwen3-8b:free ")) (catalog_ids Sample.st0)
  /\ Bot.processUpdate (R := Sample.runtime) Sample.cfg Sample.world_ok
       Sample.st0
       (Sample.from 42 (lit "/set_model " ++ lit " qwen/qwen3-8b:free ")) =
     (Bot.mkState (lit "prompt") Sample.models (lit "qwen/qwen3-8b:free"),
      [SendMessage 1000 (lit "Switched model to: qwen/qwen3-8b:free")]).
Proof.
  split; [reflexivity|]. split; [right; left; reflexivity|].
  apply (proj1 (@model_switch_on_match Sample.runtime Sample.cfg Sample.world_ok
                  Sample.st0
                  (Sample.from 42
                     (lit "/set_model " ++ lit " qwen/qwen3-8b:free "))
                  (lit " qwen/qwen3-8b:free ")
                  eq_refl eq_refl ltac:(discriminate) eq_refl)).
  right; left; reflexivity.
Defined.

(** "/help me" is payload. *)
Lemma C5_help_me :
  Bot.authorized Sample.cfg (Sample.from 42 (lit "/help" ++ lit " me")) = true
  /\ In (lit "/help") exact_tokens
  /\ lit " me" <> []
  /\ Bot.payload Sample.cfg (Sample.from 42 (lit "/help" ++ lit " me"))
     = Some (lit "/help me")
  /\ Bot.onText Sample.cfg (Sample.from 42 (lit "/help" ++ lit " me"))
       Sample.st0 = (Sample.st0, []).
Proof.
  split; [reflexivity|]. split; [left; reflexivity|]. split; [discriminate|].
  pose proof (@C5_near_miss_is_payload Sample.runtime Sample.cfg
                Sample.world_ok Sample.st0
                (Sample.from 42 (lit "/help" ++ lit " me"))
                (lit "/help") (lit " me")
                eq_refl (or_introl eq_refl) ltac:(discriminate) eq_refl)
    as [Hp [Ho _]].
  split; [exact Hp | exact Ho].
Defined.

(** Three spaces and a newline are an empty input. *)
Lemma C6_spaces_only :
  trim (lit "   " ++ nl) = []
  /\ ApiV2.callOpenRouterAPI (R := Sample.runtime)
       (Sample.answering 200 Sample.reply_body) (lit "   " ++ nl) (lit "chat")
       (lit "google/gemini-flash-1.5") [] []
     = ([], lit "Input cannot be empty.")
  /\ Api.callDeepSeekAPI (R := Sample.runtime)
       (Sample.answering 200 Sample.reply_body) (lit "   " ++ nl) (lit "chat")
       (lit "google/gemini-flash-1.5") [] []
     = ([], lit "Input cannot be empty.").
Proof.
  split; [reflexivity|].
  apply (@C6_empty_input_short_circuits Sample.runtime
           (Sample.answering 200 Sample.reply_body) (lit "   " ++ nl)
           (lit "chat") (lit "google/gemini-flash-1.5") [] []).
  reflexivity.
Defined.

(** " add login " in commit mode, for a Google model: one text block. *)
Lemma C7_add_login_google :
  trim (lit " add login ") <> []
  /\ recognized (lit "commit")
  /\ exists systemPrompt modPrefix,
       Adapter.mode_settings (lit "commit") = Some (systemPrompt, modPrefix)
       /\ fst (ApiV2.callOpenRouterAPI (R := Sample.runtime)
                 (Sample.answering 200 Sample.reply_body) (lit " add login ")
                 (lit "commit") (lit "google/gemini-flash-1.5") [] [])
          = [ mkRequest [] (lit "Bearer " ++ [])
                (lit "google/gemini-flash-1.5")
                [ mkMessage (lit "system")
                    (Blocks [ mkBlock (lit "text") systemPrompt ]);
                  mkMessage (lit "user")
                    (Blocks [ mkBlock (lit "text")
                                (modPrefix ++ lit "add login") ]) ] ].
Proof.
  split; [discriminate|]. split; [right; left; reflexivity|].
  destruct (@C7_content_variant Sample.runtime
              (Sample.answering 200 Sample.reply_body) (lit " add login ")
              (lit "commit") (lit "google/gemini-flash-1.5") [] []
              ltac:(discriminate) (or_intror (or_introl eq_refl)))
    as [sys [pre [Hset [Hgoogle _]]]].
  exists sys, pre. split; [exact Hset | exact (Hgoogle eq_refl)].
Defined.

(** Status 429 with the body [{"error":{"message":"rate limited"}}]. *)
Lemma C8_rate_limited :
  ok (mkResponse 429 [] (Normal rate_limited_body)) = false
  /\ JSON_parse (Runtime := Sample.runtime) rate_limited_body
     = Normal rate_limited_json
  /\ contains (lit "429")
       (snd (Api.callDeepSeekAPI (R := Sample.runtime)
               (Sample.answering 429 rate_limited_body)
               (lit "hi") (lit "chat") (lit "m") (lit "e") (lit "k")))
  /\ contains (lit "rate limited")
       (snd (Api.callDeepSeekAPI (R := Sample.runtime)
               (Sample.answering 429 rate_limited_body)
               (lit "hi") (lit "chat") (lit "m") (lit "e") (lit "k"))).
Proof.
  split; [reflexivity|]. split; [reflexivity|].
  apply (proj2 (proj2
           (@C8_http_error_message Sample.runtime
              (Api.callDeepSeekAPI (R := Sample.runtime))
              (Sample.answering 429 rate_limited_body)
              (lit "hi") (lit "chat") (lit "m") (lit "e") (lit "k")
              (mkRequest (lit "e") (lit "Bearer k") (lit "m")
                 [ mkMessage (lit "system") (Flat Adapter.CHAT_SYSTEM);
                   mkMessage (lit "user") (Flat (lit "hi")) ])
              (mkResponse 429 [] (Normal rate_limited_body))
              rate_limited_body
              (or_introl eq_refl) eq_refl eq_refl eq_refl eq_refl)));
    reflexivity.
Defined.

(** The edit of acknowledgment 7 is refused: the answer comes as a new
    message. *)
Lemma C9_edit_refused :
  Bot.payload Sample.cfg (Sample.from 42 (lit "fix null pointer bug"))
    = Some (lit "fix null pointer bug")
  /\ ack Sample.world_no_edit = Some 7%N
  /\ 7%N <> 0%N
  /\ Bot.respond (R := Sample.runtime) Sample.cfg Sample.world_no_edit
       Sample.st0 (Sample.from 42 (lit "fix null pointer bug"))
     = map HttpPost
         (fst (Api.callDeepSeekAPI (R := Sample.runtime)
                 (fetch Sample.world_no_edit) (lit "fix null pointer bug")
                 (lit "prompt") (lit "deepseek/deepseek-chat-v3-0324:free")
                 (Bot.deepSeekApiEndpoint Sample.cfg)
                 (Bot.deepSeekApiKey Sample.cfg)))
       ++ [ EditMessageText (lit "Hello there") 1000 7;
            SendMessage 1000 (lit "Hello there") ].
Proof.
  split; [reflexivity|]. split; [reflexivity|]. split; [discriminate|].
  exact (proj2 (@C9_edit_then_fallback Sample.runtime Sample.cfg
                  Sample.world_no_edit Sample.st0
                  (Sample.from 42 (lit "fix null pointer bug"))
                  (lit "fix null pointer bug") 7%N
                  eq_refl eq_refl ltac:(discriminate))).
Defined.

(** "/set_model " followed by three spaces: the empty id is not found. *)
Lemma C10_three_spaces :
  Bot.authorized Sample.cfg
    (Sample.from 42 (lit "/set_model " ++ lit "   ")) = true
  /\ lit "   " <> []
  /\ forallb is_white_space (lit "   ") = true
  /\ ~ In [] (catalog_ids Sample.st0)
  /\ Bot.processUpdate (R := Sample.runtime) Sample.cfg Sample.world_ok
       Sample.st0 (Sample.from 42 (lit "/set_model " ++ lit "   "))
     = (Sample.st0, [SendMessage 1000 (Bot.model_not_found [])]).
Proof.
  assert (Hcat : ~ In [] (catalog_ids Sample.st0)).
  { intros [H | [H | []]]; discriminate H. }
  split; [reflexivity|]. split; [discriminate|]. split; [reflexivity|].
  split; [exact Hcat|].
  exact (proj2 (proj2 (proj2
           (@C10_blank_argument Sample.runtime Sample.cfg Sample.world_ok
              Sample.st0 (Sample.from 42 (lit "/set_model " ++ lit "   "))
              (lit "   ") eq_refl eq_refl ltac:(discriminate) eq_refl Hcat)))).
Defined.

(** C10 does not hold as stated.  First, the empty id is looked up like any
    other: with a catalogue entry whose id is empty, "/set_model " followed
    by three spaces switches to that entry.  Second, "/set_model " followed
    by a line feed, which [trim] strips as well: the pattern does not match
    (its [.] stops at a line terminator), the general handler returns
    because the text starts with "/set_model ", and nothing is replied. *)
Lemma C10_fails_as_stated :
  (Bot.authorized Sample.cfg
     (Sample.from 42 (lit "/set_model " ++ lit "   ")) = true
   /\ forallb is_trimmed_char (lit "   ") = true
   /\ Bot.init Sample.cfg (Bot.Parsed Sample.models_blank_id)
      = Some Sample.st_blank_id
   /\ Bot.processUpdate (R := Sample.runtime) Sample.cfg Sample.world_ok
        Sample.st_blank_id (Sample.from 42 (lit "/set_model " ++ lit "   "))
      = (Bot.mkState (lit "prompt") Sample.models_blank_id [],
         [SendMessage 1000 (lit "Switched model to: ")])
   /\ Bot.processUpdate (R := Sample.runtime) Sample.cfg Sample.world_ok
        Sample.st_blank_id (Sample.from 42 (lit "/set_model " ++ lit "   "))
      <> (Sample.st_blank_id, [SendMessage 1000 (Bot.model_not_found [])]))
  /\ (Bot.authorized Sample.cfg
        (Sample.from 42 (lit "/set_model " ++ nl)) = true
      /\ forallb is_trimmed_char nl = true
      /\ Bot.re_set_model (lit "/set_model " ++ nl) = None
      /\ Bot.processUpdate (R := Sample.runtime) Sample.cfg Sample.world_ok
           Sample.st0 (Sample.from 42 (lit "/set_model " ++ nl))
         = (Sample.st0, [])
      /\ Bot.processUpdate (R := Sample.runtime) Sample.cfg Sample.world_ok
           Sample.st0 (Sample.from 42 (lit "/set_model " ++ nl))
         <> (Sample.st0, [SendMessage 1000 (Bot.model_not_found [])])).
Proof.
  repeat split; try reflexivity; discriminate.
Qed.

(* ================================================================= *)
(** * Further properties of the adapters *)

Section AdapterMore.
Context {R : Runtime}.

Lemma mode_settings_unrecognized (mode : jsstring) :
  ~ recognized mode -> Adapter.mode_settings mode = None.
Proof.
  intros H. destruct (Adapter.mode_settings mode) as [[sys pre]|] eqn:E;
    [|reflexivity].
  exfalso; apply H. eapply mode_settings_inv; exact E.
Qed.

Lemma mode_settings_system_nonempty (mode sys pre : jsstring) :
  Adapter.mode_settings mode = Some (sys, pre) -> is_empty sys = false.
Proof.
  intros E.
  assert (Hrec : recognized mode) by (eapply mode_settings_inv; exact E).
  destruct (mode_settings_recognized Hrec) as [sys' [pre' [E' Hne]]].
  rewrite E in E'. injection E' as <- <-. exact Hne.
Qed.

(** An input that is not blank in a mode that is none of the three: both
    adapters answer "Internal error: Invalid processing mode." and issue no
    request. *)
Theorem invalid_mode_is_internal_error
    (fetch : Fetch) (inputText mode model endpoint key : jsstring) :
  trim inputText <> [] ->
  ~ recognized mode ->
  Api.callDeepSeekAPI fetch inputText mode model endpoint key
    = ([], lit "Internal error: Invalid processing mode.")
  /\ ApiV2.callOpenRouterAPI fetch inputText mode model endpoint key
    = ([], lit "Internal error: Invalid processing mode.").
Proof.
  intros Hne Hmode. apply is_empty_false in Hne.
  unfold Api.callDeepSeekAPI, ApiV2.callOpenRouterAPI.
  rewrite Hne, mode_settings_unrecognized by exact Hmode.
  split; reflexivity.
Qed.

(** The request of [callDeepSeekAPI]: one POST to the endpoint, with the
    bearer key and the model id, carrying the system prompt of the mode and
    the trimmed input behind the mode's prefix, both as flat strings; in
    chat mode the user message is the trimmed input alone. *)
Theorem callDeepSeekAPI_request
    (fetch : Fetch) (inputText mode model endpoint key : jsstring) :
  trim inputText <> [] ->
  recognized mode ->
  exists systemPrompt modPrefix,
    Adapter.mode_settings mode = Some (systemPrompt, modPrefix)
    /\ fst (Api.callDeepSeekAPI fetch inputText mode model endpoint key)
       = [ mkRequest endpoint (lit "Bearer " ++ key) model
             [ mkMessage (lit "system") (Flat systemPrompt);
               mkMessage (lit "user") (Flat (modPrefix ++ trim inputText)) ] ]
    /\ (mode = lit "chat" -> modPrefix = [])
    /\ (mode = lit "prompt" ->
        modPrefix = lit "Translate the following prompt into English" ++ nl
                    ++ lit "--- --- ---" ++ nl)
    /\ (mode = lit "commit" ->
        modPrefix = lit "Translate the following commit message into English"
                    ++ nl ++ lit "--- --- ---" ++ nl).
Proof.
  intros Hne Hmode. apply is_empty_false in Hne.
  unfold Api.callDeepSeekAPI. rewrite Hne.
  destruct Hmode as [-> | [-> | ->]].
  - exists Adapter.PROMPT_SYSTEM, Adapter.PROMPT_PREFIX.
    repeat split; try reflexivity; discriminate.
  - exists Adapter.COMMIT_SYSTEM, Adapter.COMMIT_PREFIX.
    repeat split; try reflexivity; discriminate.
  - exists Adapter.CHAT_SYSTEM, [].
    repeat split; try reflexivity; discriminate.
Qed.

(** For a model id that does not start with "google/", [callOpenRouterAPI]
    issues the requests and returns the string [callDeepSeekAPI] does, on
    every input and in every mode. *)
Theorem standard_model_same_as_api
    (fetch : Fetch) (inputText mode model endpoint key : jsstring) :
  startsWith (lit "google/") model = false ->
  ApiV2.callOpenRouterAPI fetch inputText mode model endpoint key
  = Api.callDeepSeekAPI fetch inputText mode model endpoint key.
Proof.
  intros Hg. unfold ApiV2.callOpenRouterAPI, Api.callDeepSeekAPI.
  destruct (is_empty (trim inputText)); [reflexivity|].
  destruct (Adapter.mode_settings mode) as [[sys pre]|] eqn:E; [|reflexivity].
  unfold ApiV2.compose, ApiV2.buildStandardMessages.
  rewrite Hg. erewrite mode_settings_system_nonempty by exact E.
  reflexivity.
Qed.

Lemma callOpenRouterAPI_visible (fetch : Fetch)
    (t mode model endpoint key : jsstring) :
  visible (snd (ApiV2.callOpenRouterAPI fetch t mode model endpoint key)) = true.
Proof.
  unfold ApiV2.callOpenRouterAPI.
  destruct (is_empty (trim t)); [reflexivity|].
  destruct (Adapter.mode_settings mode) as [[sys pre]|]; [|reflexivity].
  apply exchange_visible.
Qed.

Lemma visible_trim_nonempty (s : jsstring) : visible s = true -> trim s <> [].
Proof.
  intros H. apply is_empty_false. apply visible_not_blank; exact H.
Qed.

(** Whatever the input, the mode, the model and the answer of the network,
    either adapter issues at most one request and returns a string that is
    neither empty nor made of white space only. *)
Theorem adapters_one_request_nonblank_result
    (fetch : Fetch) (inputText mode model endpoint key : jsstring) :
  (List.length (fst (Api.callDeepSeekAPI fetch inputText mode model endpoint key))
     <= 1
   /\ trim (snd (Api.callDeepSeekAPI fetch inputText mode model endpoint key))
      <> [])
  /\ (List.length
        (fst (ApiV2.callOpenRouterAPI fetch inputText mode model endpoint key))
        <= 1
      /\ trim (snd (ApiV2.callOpenRouterAPI fetch inputText mode model
                      endpoint key)) <> []).
Proof.
  split; (split; [| apply visible_trim_nonempty;
                    first [apply callDeepSeekAPI_visible
                          | apply callOpenRouterAPI_visible]]).
  - unfold Api.callDeepSeekAPI.
    destruct (is_empty (trim inputText)); [simpl; lia|].
    destruct (Adapter.mode_settings mode) as [[sys pre]|]; simpl; lia.
  - unfold ApiV2.callOpenRouterAPI.
    destruct (is_empty (trim inputText)); [simpl; lia|].
    destruct (Adapter.mode_settings mode) as [[sys pre]|]; simpl; lia.
Qed.

(** A 2xx answer whose body parses to an object with a non-empty [choices]
    array, the first choice holding a [message] with a string [content]:
    either adapter returns the content trimmed, or "[Received empty response
    from AI]" when nothing is left of it. *)
Theorem success_returns_trimmed_content
    (call : Fetch -> jsstring -> jsstring -> jsstring -> jsstring -> jsstring
            -> list Request * jsstring)
    (fetch : Fetch) (inputText mode model endpoint key : jsstring)
    (req : Request) (resp : Response) (b raw : jsstring)
    (data first message : JsValue) (rest : list JsValue) :
  call = Api.callDeepSeekAPI \/ call = ApiV2.callOpenRouterAPI ->
  fst (call fetch inputText mode model endpoint key) = [req] ->
  fetch req = Normal resp ->
  ok resp = true ->
  body resp = Normal b ->
  JSON_parse b = Normal data ->
  get data (lit "choices") = Normal (JArray (first :: rest)) ->
  get first (lit "message") = Normal message ->
  get message (lit "content") = Normal (JString raw) ->
  snd (call fetch inputText mode model endpoint key)
  = if is_empty (trim raw) then lit "[Received empty response from AI]"
    else trim raw.
Proof.
  intros Hcall Hreq Hf Hok Hb Hp Hc Hm Hs.
  erewrite call_issued by eassumption.
  unfold Adapter.exchange. rewrite Hf; cbn [bind]. rewrite Hok; cbn [negb].
  unfold json. rewrite Hb; cbn [bind]. rewrite Hp; cbn [bind].
  unfold Adapter.choice_content. rewrite Hc.
  cbn [bind truthy negb length_gt0 item0]. rewrite Hm; cbn [bind].
  erewrite get_string_truthy by exact Hs. cbn [negb]. rewrite Hs; cbn [bind].
  reflexivity.
Qed.


(** When the request is rejected, when the body cannot be read, or when the
    body of a 2xx answer is not JSON, with the error [e]: either adapter
    returns "Sorry, the request to the AI timed out." if [e] is an
    [AbortError], and otherwise the network-error sentence followed by the
    message of [e]. *)
Theorem failure_is_reported
    (call : Fetch -> jsstring -> jsstring -> jsstring -> jsstring -> jsstring
            -> list Request * jsstring)
    (fetch : Fetch) (inputText mode model endpoint key : jsstring)
    (req : Request) (e : JsError) :
  call = Api.callDeepSeekAPI \/ call = ApiV2.callOpenRouterAPI ->
  fst (call fetch inputText mode model endpoint key) = [req] ->
  fetch req = Throw e
  \/ (exists resp, fetch req = Normal resp /\ body resp = Throw e)
  \/ (exists resp b, fetch req = Normal resp /\ ok resp = true
                     /\ body resp = Normal b /\ JSON_parse b = Throw e) ->
  snd (call fetch inputText mode model endpoint key)
  = if str_eqb (err_name e) (lit "AbortError")
    then lit "Sorry, the request to the AI timed out."
    else lit "Sorry, I encountered a network or processing error while contacting the AI. Details: "
         ++ err_message e.
Proof.
  intros Hcall Hreq Hfail.
  erewrite call_issued by eassumption.
  unfold Adapter.exchange.
  destruct Hfail as [Hf | [[resp [Hf Hb]] | [resp [b [Hf [Hok [Hb Hp]]]]]]];
    rewrite Hf; cbn [bind].
  - reflexivity.
  - unfold json. destruct (ok resp); cbn [negb]; rewrite Hb; reflexivity.
  - rewrite Hok; cbn [negb]. unfold json. rewrite Hb; cbn [bind].
    rewrite Hp; reflexivity.
Qed.

End AdapterMore.

(* ================================================================= *)
(** * Further properties of the bot *)

Section BotMore.
Context {R : Runtime}.
Variable cfg : Bot.Config.

Lemma is_empty_lit_app (p rest : jsstring) :
  is_empty p = false -> is_empty (p ++ rest) = false.
Proof. destruct p; [discriminate | reflexivity]. Qed.

(** Each mode command of the authorized sender sets the mode it names,
    leaves catalogue and model id alone, is answered by its one
    confirmation, and causes no acknowledgment and no request to the AI. *)
Theorem mode_command_switches
    (w : World) (st : Bot.State) (msg : Msg) (tok mode reply : jsstring) :
  Bot.authorized cfg msg = true ->
  In (tok, (mode, reply)) mode_commands ->
  text msg = Some tok ->
  recognized mode
  /\ Bot.processUpdate cfg w st msg =
     (Bot.mkState mode (Bot.availableModels st) (Bot.currentModelId st),
      [SendMessage (chat_id msg) reply]).
Proof.
  intros Hauth Hin Ht.
  assert (Hrest : forall regs st1,
            (forall re cb, In (re, cb) regs -> re tok = None) ->
            Bot.run_callbacks regs msg tok st1 = (st1, []))
    by (intros; apply run_callbacks_none; assumption).
  unfold mode_commands in Hin; cbn [In] in Hin.
  destruct Hin as [H | [H | [H | []]]]; injection H as <- <- <-;
    (split; [unfold recognized; auto|]);
    (apply processUpdate_command;
     [ unfold Bot.payload; rewrite Hauth, Ht; reflexivity
     | unfold Bot.onText; rewrite Ht; cbv beta iota;
       change (is_empty _) with false; cbv iota;
       unfold Bot.registrations;
       repeat (rewrite run_callbacks_skip by reflexivity);
       apply run_callbacks_hit with (capture := []);
       [ reflexivity
       | unfold Bot.on_prompt_mode, Bot.on_commit_mode, Bot.on_chat_mode,
           Bot.on_mode; rewrite Hauth; cbn [negb];
         rewrite sendMessage_visible by reflexivity; reflexivity
       | apply Hrest; intros re cb Hin; cbn [In] in Hin;
         repeat (destruct Hin as [Heq | Hin];
                 [injection Heq as <- <-; reflexivity|]);
         contradiction ] ]).
Qed.

(** A text beginning with "/start" from anybody but the authorized user is
    answered by exactly one message, which carries the sender's id in
    decimal; nothing else is sent or requested and the state stays. *)
Theorem unauthorized_start_is_denied
    (w : World) (st : Bot.State) (msg : Msg) (rest : jsstring) :
  Bot.authorized cfg msg = false ->
  text msg = Some (lit "/start" ++ rest) ->
  Bot.processUpdate cfg w st msg =
  (st, [SendMessage (chat_id msg)
          (lit "User ID " ++ decimal_Z (from_id msg)
           ++ lit " is not authorized to use this bot.")]).
Proof.
  intros Hauth Ht. apply processUpdate_command.
  - apply payload_unauthorized; exact Hauth.
  - unfold Bot.onText. rewrite Ht.
    rewrite is_empty_lit_app by reflexivity.
    unfold Bot.registrations.
    apply run_callbacks_hit with (capture := []).
    + unfold Bot.re_start. rewrite startsWith_app. reflexivity.
    + unfold Bot.on_start. rewrite Hauth. reflexivity.
    + eapply run_callbacks_guarded; [apply guarded_callbacks | exact Hauth].
Qed.

(** A message without text (a sticker, a photo) or with an empty text is
    dropped, whoever sends it. *)
Theorem no_text_is_dropped (w : World) (st : Bot.State) (msg : Msg) :
  text msg = None \/ text msg = Some [] ->
  Bot.processUpdate cfg w st msg = (st, []).
Proof.
  intros H. unfold Bot.processUpdate, Bot.onText, Bot.acknowledge,
    Bot.respond, Bot.payload.
  destruct H as [-> | ->]; destruct (Bot.authorized cfg msg); reflexivity.
Qed.

(** "/help" from the authorized sender changes nothing and is answered by
    one message, the help text, which reports the current mode and the
    current model id. *)
Theorem help_reports_settings (w : World) (st : Bot.State) (msg : Msg) :
  Bot.authorized cfg msg = true ->
  text msg = Some (lit "/help") ->
  Bot.processUpdate cfg w st msg
    = (st, [SendMessage (chat_id msg) (Bot.helpText st)])
  /\ contains (lit "Current Mode: " ++ Bot.currentMode st ++ nl)
              (Bot.helpText st)
  /\ contains (lit "Current Model: " ++ Bot.currentModelId st ++ nl)
              (Bot.helpText st).
Proof.
  intros Hauth Ht. split; [|split].
  - apply processUpdate_command.
    + unfold Bot.payload; rewrite Hauth, Ht; reflexivity.
    + unfold Bot.onText; rewrite Ht.
      change (is_empty (lit "/help")) with false; cbv iota.
      unfold Bot.registrations.
      rewrite run_callbacks_skip by reflexivity.
      apply run_callbacks_hit with (capture := []); [reflexivity | |].
      * unfold Bot.on_help. rewrite Hauth; cbn [negb].
        rewrite sendMessage_visible by reflexivity. reflexivity.
      * apply run_callbacks_none. intros re cb Hin; cbn [In] in Hin.
        repeat (destruct Hin as [Heq | Hin];
                [injection Heq as <- <-; reflexivity|]).
        contradiction.
  - unfold Bot.helpText.
    do 15 apply contains_app_r.
    exists [], (lit "Current Model: " ++ Bot.currentModelId st ++ nl ++ nl
                ++ lit "Send any text message to process it with the current mode and model.").
    rewrite <- !app_assoc. reflexivity.
  - unfold Bot.helpText.
    do 18 apply contains_app_r.
    exists [], (nl ++ lit "Send any text message to process it with the current mode and model.").
    rewrite <- !app_assoc. reflexivity.
Qed.


Lemma contains_concat (x s : jsstring) (l : list jsstring) :
  In s l -> contains x s -> contains x (List.concat l).
Proof.
  induction l as [|a l IH]; simpl; [contradiction|].
  intros [-> | Hin] Hc.
  - apply contains_app_l; exact Hc.
  - apply contains_app_r. apply IH; assumption.
Qed.

Lemma model_lines_id (st : Bot.State) (model : Bot.Model) :
  contains (lit "  ID: " ++ Bot.id model ++ nl) (Bot.model_lines st model).
Proof.
  unfold Bot.model_lines. do 4 apply contains_app_r.
  exists [], (if is_empty (Bot.notes model) then []
              else lit "  Notes: " ++ Bot.notes model ++ nl).
  rewrite <- !app_assoc. reflexivity.
Qed.

Lemma model_lines_current (st : Bot.State) (model : Bot.Model) :
  Bot.id model = Bot.currentModelId st ->
  contains (lit "- " ++ str_or (Bot.name model) (Bot.id model)
            ++ lit " (Current)" ++ nl)
           (Bot.model_lines st model).
Proof.
  intros Hid. unfold Bot.model_lines. rewrite Hid, str_eqb_refl.
  exists [], (lit "  ID: " ++ Bot.currentModelId st ++ nl
              ++ (if is_empty (Bot.notes model) then []
                  else lit "  Notes: " ++ Bot.notes model ++ nl)).
  rewrite <- !app_assoc. reflexivity.
Qed.

(** "/list_models" from the authorized sender changes nothing and is
    answered by one message that shows the id of every catalogue entry, marks
    with " (Current)" every entry whose id is the current model id, and ends
    with the current model id. *)
Theorem list_models_shows_catalogue (w : World) (st : Bot.State) (msg : Msg) :
  Bot.authorized cfg msg = true ->
  text msg = Some (lit "/list_models") ->
  Bot.processUpdate cfg w st msg
    = (st, [SendMessage (chat_id msg) (Bot.modelListText st)])
  /\ (forall model, In model (Bot.availableModels st) ->
        contains (lit "  ID: " ++ Bot.id model ++ nl) (Bot.modelListText st))
  /\ (forall model, In model (Bot.availableModels st) ->
        Bot.id model = Bot.currentModelId st ->
        contains (lit "- " ++ str_or (Bot.name model) (Bot.id model)
                  ++ lit " (Current)" ++ nl)
                 (Bot.modelListText st))
  /\ exists listing,
       Bot.modelListText st
       = listing ++ nl ++ lit "Current Model ID: " ++ Bot.currentModelId st.
Proof.
  intros Hauth Ht.
  assert (Hlist : forall x model,
            In model (Bot.availableModels st) ->
            contains x (Bot.model_lines st model) ->
            contains x (Bot.modelListText st)).
  { intros x model Hin Hc. unfold Bot.modelListText.
    destruct (Bot.availableModels st) as [|m0 ms] eqn:E; [contradiction|].
    apply contains_app_l. do 2 apply contains_app_r.
    apply contains_concat with (s := Bot.model_lines st model);
      [apply in_map; exact Hin | exact Hc]. }
  split; [|split; [|split]].
  - apply processUpdate_command.
    + unfold Bot.payload; rewrite Hauth, Ht; reflexivity.
    + unfold Bot.onText; rewrite Ht.
      change (is_empty (lit "/list_models")) with false; cbv iota.
      unfold Bot.registrations.
      repeat (rewrite run_callbacks_skip by reflexivity).
      apply run_callbacks_hit with (capture := []); [reflexivity | |].
      * unfold Bot.on_list_models. rewrite Hauth; cbn [negb].
        rewrite sendMessage_visible; [reflexivity|].
        unfold Bot.modelListText.
        destruct (Bot.availableModels st); reflexivity.
      * apply run_callbacks_none. intros re cb Hin; cbn [In] in Hin.
        repeat (destruct Hin as [Heq | Hin];
                [injection Heq as <- <-; reflexivity|]).
        contradiction.
  - intros model Hin. apply (Hlist _ model Hin). apply model_lines_id.
  - intros model Hin Hid. apply (Hlist _ model Hin).
    apply model_lines_current; exact Hid.
  - unfold Bot.modelListText. eexists. reflexivity.
Qed.

(** Start-up ends the process exactly when a required setting is missing
    (or the user id is not a non-zero number) or [models.json] holds an empty
    list.  Otherwise the mode is "prompt" and the catalogue is not empty: it
    is the list of [models.json], or the single entry made from the default
    model id when the file is missing or unreadable. *)
Theorem init_outcome (file : Bot.ModelsFile) :
  (Bot.init cfg file = None <->
   Bot.config_ok cfg = false \/ file = Bot.Parsed [])
  /\ (forall st, Bot.init cfg file = Some st ->
        Bot.currentMode st = lit "prompt"
        /\ Bot.availableModels st <> []
        /\ Bot.availableModels st
           = match file with
             | Bot.Parsed models => models
             | _ => [ Bot.mkModel (Bot.defaultModelId cfg)
                        (Bot.defaultModelId cfg ++ lit " (Default from .env)")
                        [] ]
             end).
Proof.
  unfold Bot.init. destruct (Bot.config_ok cfg); cbn [negb].
  - split.
    + split.
      * destruct file as [| |models]; try discriminate.
        destruct (existsb _ models) eqn:E; [discriminate|].
        destruct models; [auto | discriminate].
      * intros [H | ->]; [discriminate | reflexivity].
    + intros st. destruct file as [| |models].
      * intros H; injection H as <-. repeat split. discriminate.
      * intros H; injection H as <-. repeat split. discriminate.
      * destruct (existsb _ models) eqn:E.
        -- intros H; injection H as <-. repeat split.
           cbn [Bot.availableModels]. intros ->. discriminate E.
        -- destruct models as [|first rest]; [discriminate|].
           intros H; injection H as <-. repeat split. discriminate.
  - split; [split; auto | discriminate].
Qed.


(** *** Ordinary text *)

Lemma payload_inv (msg : Msg) (t : jsstring) :
  Bot.payload cfg msg = Some t ->
  Bot.authorized cfg msg = true
  /\ text msg = Some t
  /\ is_empty t = false
  /\ includes Bot.commands t = false
  /\ startsWith (lit "/set_model ") t = false.
Proof.
  unfold Bot.payload.
  destruct (Bot.authorized cfg msg); cbn [negb]; [|discriminate].
  destruct (text msg) as [t'|]; [|discriminate].
  destruct (is_empty t') eqn:He; [discriminate|].
  destruct (includes Bot.commands t') eqn:Hi; [discriminate|].
  destruct (startsWith (lit "/set_model ") t') eqn:Hs; [discriminate|].
  cbn [orb]. intros H; injection H as ->. auto.
Qed.

Lemma includes_false (arr : list jsstring) (c t : jsstring) :
  includes arr t = false -> In c arr -> str_eqb t c = false.
Proof.
  unfold includes. intros H Hin.
  destruct (str_eqb t c) eqn:E; [|reflexivity].
  apply str_eqb_eq in E; subst c.
  assert (existsb (fun c => str_eqb c t) arr = true); [|congruence].
  apply existsb_exists. exists t. split; [exact Hin | apply str_eqb_refl].
Qed.

(** On a payload that does not begin with "/start" no pattern matches. *)
Lemma payload_no_callback (msg : Msg) (t : jsstring) (st : Bot.State) :
  Bot.payload cfg msg = Some t ->
  startsWith (lit "/start") t = false ->
  Bot.onText cfg msg st = (st, []).
Proof.
  intros Hp Hstart.
  destruct (payload_inv _ Hp) as [_ [Ht [He [Hi Hs]]]].
  unfold Bot.onText. rewrite Ht, He.
  apply run_callbacks_none.
  intros re cb Hin. unfold Bot.registrations in Hin; cbn [In] in Hin.
  destruct Hin as [Heq | Hin];
    [injection Heq as <- <-; unfold Bot.re_start; rewrite Hstart; reflexivity|].
  do 5 (destruct Hin as [Heq | Hin];
        [injection Heq as <- <-; unfold Bot.re_exact;
         erewrite includes_false by
           (try exact Hi; unfold Bot.commands; cbn [In]; tauto);
         reflexivity|]).
  destruct Hin as [Heq | []].
  injection Heq as <- <-. unfold Bot.re_set_model. rewrite Hs. reflexivity.
Qed.

(** Any text of the authorized sender that is not one of the six command
    tokens, does not start with "/set_model " and does not begin with
    "/start" goes down one path: the acknowledgment naming mode and model,
    the call of [callDeepSeekAPI] on the text with the current mode and
    model, and the relay of its result; the state is not touched. *)
Theorem ordinary_text_pipeline
    (w : World) (st : Bot.State) (msg : Msg) (t : jsstring) :
  Bot.authorized cfg msg = true ->
  text msg = Some t ->
  t <> [] ->
  includes Bot.commands t = false ->
  startsWith (lit "/set_model ") t = false ->
  startsWith (lit "/start") t = false ->
  let call := Api.callDeepSeekAPI (fetch w) t (Bot.currentMode st)
                (Bot.currentModelId st) (Bot.deepSeekApiEndpoint cfg)
                (Bot.deepSeekApiKey cfg) in
  Bot.processUpdate cfg w st msg =
  (st, SendMessage (chat_id msg)
         (lit "Processing in " ++ Bot.currentMode st ++ lit " mode with "
          ++ Bot.currentModelId st ++ lit "...")
       :: map HttpPost (fst call) ++ Bot.relay w (chat_id msg) (snd call)).
Proof.
  intros Hauth Ht Hne Hi Hs Hstart call.
  assert (Hp : Bot.payload cfg msg = Some t).
  { unfold Bot.payload. rewrite Hauth, Ht; cbn [negb].
    apply is_empty_false in Hne. rewrite Hne, Hi, Hs. reflexivity. }
  erewrite processUpdate_payload;
    [ | exact Hp | eapply payload_no_callback; [exact Hp | exact Hstart] ].
  reflexivity.
Qed.

(** When the acknowledgment could not be sent (the send was rejected, or the
    message came back without an id), nothing is edited: the result of
    [callDeepSeekAPI] is sent as a new message. *)
Theorem relay_without_acknowledgment
    (w : World) (st : Bot.State) (msg : Msg) (t : jsstring) :
  Bot.payload cfg msg = Some t ->
  ack w = None \/ ack w = Some 0%N ->
  let call := Api.callDeepSeekAPI (fetch w) t (Bot.currentMode st)
                (Bot.currentModelId st) (Bot.deepSeekApiEndpoint cfg)
                (Bot.deepSeekApiKey cfg) in
  Bot.respond cfg w st msg
  = map HttpPost (fst call) ++ [SendMessage (chat_id msg) (snd call)].
Proof.
  intros Hp Hack call. unfold Bot.respond. rewrite Hp. fold call.
  pose proof (callDeepSeekAPI_visible (fetch w) t (Bot.currentMode st)
                (Bot.currentModelId st) (Bot.deepSeekApiEndpoint cfg)
                (Bot.deepSeekApiKey cfg)) as Hv.
  fold call in Hv. destruct call as [requests aiResponse]; cbn [fst snd] in *.
  unfold Bot.relay.
  destruct Hack as [-> | ->]; cbn [N.eqb];
    rewrite str_or_visible by exact Hv;
    rewrite sendMessage_visible by exact Hv; reflexivity.
Qed.

(** *** The mode stays one of the three *)

Lemma callbacks_keep_mode_recognized :
  Forall (fun rc => forall msg capture st,
            recognized (Bot.currentMode st) ->
            recognized (Bot.currentMode (fst (snd rc msg capture st))))
         (Bot.registrations cfg).
Proof.
  unfold Bot.registrations.
  repeat apply Forall_cons; try apply Forall_nil;
    intros msg capture st Hrec; cbn [snd];
    unfold Bot.on_start, Bot.on_help, Bot.on_prompt_mode, Bot.on_commit_mode,
      Bot.on_chat_mode, Bot.on_mode, Bot.on_list_models, Bot.on_set_model;
    destruct (Bot.authorized cfg msg); cbn [negb fst]; try exact Hrec;
    try (unfold recognized; cbn [Bot.currentMode]; tauto).
  destruct (find _ (Bot.availableModels st)); exact Hrec.
Qed.

Lemma run_callbacks_mode regs (msg : Msg) (t : jsstring) (st : Bot.State) :
  Forall (fun rc => forall msg capture st,
            recognized (Bot.currentMode st) ->
            recognized (Bot.currentMode (fst (snd rc msg capture st)))) regs ->
  recognized (Bot.currentMode st) ->
  recognized (Bot.currentMode (fst (Bot.run_callbacks regs msg t st))).
Proof.
  intros Hall; revert st.
  induction Hall as [|[re cb] regs Hcb _ IH]; intros st Hrec; simpl;
    [exact Hrec|].
  destruct (re t) as [capture|]; [|apply IH; exact Hrec].
  specialize (Hcb msg capture st Hrec); cbn [snd] in Hcb.
  destruct (cb msg capture st) as [st1 ev1]; cbn [fst] in Hcb.
  specialize (IH st1 Hcb).
  destruct (Bot.run_callbacks regs msg t st1) as [st2 ev2]. exact IH.
Qed.

Lemma processUpdate_mode (w : World) (st : Bot.State) (msg : Msg) :
  recognized (Bot.currentMode st) ->
  recognized (Bot.currentMode (fst (Bot.processUpdate cfg w st msg))).
Proof.
  intros Hrec. rewrite processUpdate_state. unfold Bot.onText.
  destruct (text msg) as [t|]; [|exact Hrec].
  destruct (is_empty t); [exact Hrec|].
  apply run_callbacks_mode; [apply callbacks_keep_mode_recognized | exact Hrec].
Qed.

Lemma run_mode (inbox : list (World * Msg)) (st : Bot.State) :
  recognized (Bot.currentMode st) ->
  recognized (Bot.currentMode (fst (Bot.run cfg st inbox))).
Proof.
  revert st; induction inbox as [|[w msg] inbox IH]; intros st Hrec; simpl;
    [exact Hrec|].
  pose proof (@processUpdate_mode w st msg Hrec) as H1.
  destruct (Bot.processUpdate cfg w st msg) as [st1 ev1]; cbn [fst] in H1.
  specialize (IH st1 H1).
  destruct (Bot.run cfg st1 inbox) as [st2 ev2]. exact IH.
Qed.

(** In every state the bot reaches after start-up the mode is "prompt",
    "commit" or "chat"; so a payload that is not blank never meets the
    "Internal error" answer of the adapter: exactly one request is posted,
    to the configured endpoint and for the current model id. *)
Theorem reachable_mode_is_served
    (file : Bot.ModelsFile) (st0 : Bot.State) (inbox : list (World * Msg)) :
  Bot.init cfg file = Some st0 ->
  let st := fst (Bot.run cfg st0 inbox) in
  recognized (Bot.currentMode st)
  /\ forall (w : World) (msg : Msg) (t : jsstring),
       Bot.payload cfg msg = Some t ->
       trim t <> [] ->
       exists req,
         Bot.respond cfg w st msg
         = HttpPost req
           :: Bot.relay w (chat_id msg) (Adapter.exchange (fetch w) req)
         /\ req_url req = Bot.deepSeekApiEndpoint cfg
         /\ req_model req = Bot.currentModelId st.
Proof.
  intros Hinit st.
  assert (Hrec0 : recognized (Bot.currentMode st0)).
  { destruct (init_outcome file) as [_ H]. destruct (H st0 Hinit) as [-> _].
    left; reflexivity. }
  assert (Hrec : recognized (Bot.currentMode st)) by (apply run_mode; exact Hrec0).
  split; [exact Hrec|].
  intros w msg t Hp Hne. unfold Bot.respond. rewrite Hp.
  unfold Api.callDeepSeekAPI. apply is_empty_false in Hne. rewrite Hne.
  destruct (mode_settings_recognized Hrec) as [sys [pre [-> _]]].
  eexists. split; [reflexivity|]. split; reflexivity.
Qed.


(** *** Nothing blank is ever shown *)

Lemma sendMessage_presentable (chatId : Z) (b : jsstring) :
  Forall presentable (Utils.sendMessage chatId b).
Proof.
  unfold Utils.sendMessage. destruct (is_empty (trim b)) eqn:E; constructor.
  - simpl. apply is_empty_false; exact E.
  - constructor.
Qed.

Lemma visible_presentable (chatId : Z) (b : jsstring) :
  visible b = true -> presentable (SendMessage chatId b).
Proof. intros H; simpl. apply visible_trim_nonempty; exact H. Qed.

Lemma callbacks_presentable :
  Forall (fun rc => forall msg capture st,
            Forall presentable (snd (snd rc msg capture st)))
         (Bot.registrations cfg).
Proof.
  unfold Bot.registrations.
  repeat apply Forall_cons; try apply Forall_nil;
    intros msg capture st; cbn [snd];
    unfold Bot.on_start, Bot.on_help, Bot.on_prompt_mode, Bot.on_commit_mode,
      Bot.on_chat_mode, Bot.on_mode, Bot.on_list_models, Bot.on_set_model;
    destruct (Bot.authorized cfg msg); cbn [negb snd];
    try apply sendMessage_presentable; try apply Forall_nil.
  - constructor; [|constructor]. apply visible_presentable; reflexivity.
  - destruct (find _ (Bot.availableModels st)); cbn [snd];
      apply sendMessage_presentable.
Qed.

Lemma run_callbacks_presentable regs (msg : Msg) (t : jsstring)
    (st : Bot.State) :
  Forall (fun rc => forall msg capture st,
            Forall presentable (snd (snd rc msg capture st))) regs ->
  Forall presentable (snd (Bot.run_callbacks regs msg t st)).
Proof.
  intros Hall; revert st.
  induction Hall as [|[re cb] regs Hcb _ IH]; intros st; simpl;
    [constructor|].
  destruct (re t) as [capture|]; [|apply IH].
  specialize (Hcb msg capture st); cbn [snd] in Hcb.
  destruct (cb msg capture st) as [st1 ev1]; cbn [snd] in Hcb.
  specialize (IH st1).
  destruct (Bot.run_callbacks regs msg t st1) as [st2 ev2]; cbn [snd] in *.
  apply Forall_app; split; assumption.
Qed.

Lemma relay_presentable (w : World) (chatId : Z) (aiResponse : jsstring) :
  visible aiResponse = true ->
  Forall presentable (Bot.relay w chatId aiResponse).
Proof.
  intros Hv. unfold Bot.relay.
  destruct (ack w) as [message_id|]; [|apply sendMessage_presentable].
  destruct (N.eqb message_id 0); [apply sendMessage_presentable|].
  constructor.
  - simpl. rewrite str_or_visible by exact Hv.
    apply visible_trim_nonempty; exact Hv.
  - destruct (edit_ok w); [constructor | apply sendMessage_presentable].
Qed.

(** Whatever the state, the message and the answers of the outside world,
    no text the bot sends or edits in is empty or made of white space
    only. *)
Theorem never_shows_blank_text
    (w : World) (st : Bot.State) (msg : Msg) (e : Event) :
  In e (snd (Bot.processUpdate cfg w st msg)) ->
  presentable e.
Proof.
  revert e. apply Forall_forall.
  unfold Bot.processUpdate.
  assert (Hcb : Forall presentable (snd (Bot.onText cfg msg st))).
  { unfold Bot.onText. destruct (text msg) as [t|]; [|constructor].
    destruct (is_empty t); [constructor|].
    apply run_callbacks_presentable, callbacks_presentable. }
  destruct (Bot.onText cfg msg st) as [st' replies]; cbn [snd] in *.
  apply Forall_app; split; [|apply Forall_app; split; [exact Hcb|]].
  - unfold Bot.acknowledge. destruct (Bot.payload cfg msg); constructor;
      [|constructor]. apply visible_presentable; reflexivity.
  - unfold Bot.respond. destruct (Bot.payload cfg msg) as [t|]; [|constructor].
    pose proof (callDeepSeekAPI_visible (fetch w) t (Bot.currentMode st')
                  (Bot.currentModelId st') (Bot.deepSeekApiEndpoint cfg)
                  (Bot.deepSeekApiKey cfg)) as Hv.
    destruct (Api.callDeepSeekAPI (fetch w) t (Bot.currentMode st')
                (Bot.currentModelId st') (Bot.deepSeekApiEndpoint cfg)
                (Bot.deepSeekApiKey cfg)) as [requests aiResponse];
      cbn [snd] in Hv.
    apply Forall_app; split; [|apply relay_presentable; exact Hv].
    apply Forall_forall. intros x Hx. apply in_map_iff in Hx as [r [<- _]].
    exact I.
Qed.

(** *** Settings take effect on the next message *)

(** After a mode command, ordinary text is acknowledged with the new mode
    and sent to the AI with the system prompt and the prefix of that mode,
    for the model id that was current all along. *)
Theorem mode_command_then_text
    (w1 w2 : World) (st : Bot.State) (msg1 msg2 : Msg)
    (tok mode reply t : jsstring) :
  Bot.authorized cfg msg1 = true ->
  In (tok, (mode, reply)) mode_commands ->
  text msg1 = Some tok ->
  Bot.payload cfg msg2 = Some t ->
  startsWith (lit "/start") t = false ->
  trim t <> [] ->
  exists systemPrompt modPrefix,
    Adapter.mode_settings mode = Some (systemPrompt, modPrefix)
    /\ Bot.run cfg st [(w1, msg1); (w2, msg2)] =
       (Bot.mkState mode (Bot.availableModels st) (Bot.currentModelId st),
        SendMessage (chat_id msg1) reply
        :: SendMessage (chat_id msg2)
             (lit "Processing in " ++ mode ++ lit " mode with "
              ++ Bot.currentModelId st ++ lit "...")
        :: HttpPost
             (mkRequest (Bot.deepSeekApiEndpoint cfg)
                (lit "Bearer " ++ Bot.deepSeekApiKey cfg)
                (Bot.currentModelId st)
                [ mkMessage (lit "system") (Flat systemPrompt);
                  mkMessage (lit "user") (Flat (modPrefix ++ trim t)) ])
        :: Bot.relay w2 (chat_id msg2)
             (snd (Api.callDeepSeekAPI (fetch w2) t mode
                     (Bot.currentModelId st) (Bot.deepSeekApiEndpoint cfg)
                     (Bot.deepSeekApiKey cfg)))).
Proof.
  intros Hauth Hin Ht1 Hp Hstart Hne.
  destruct (@mode_command_switches w1 st msg1 tok mode reply Hauth Hin Ht1)
    as [Hrec H1].
  destruct (mode_settings_recognized Hrec) as [sys [pre [Hset _]]].
  exists sys, pre. split; [exact Hset|].
  cbn [Bot.run]. rewrite H1.
  erewrite processUpdate_payload;
    [ | exact Hp | eapply payload_no_callback; [exact Hp | exact Hstart] ].
  cbn [Bot.currentMode Bot.currentModelId Bot.availableModels].
  unfold Api.callDeepSeekAPI. apply is_empty_false in Hne. rewrite Hne, Hset.
  cbn [fst snd map app]. rewrite app_nil_r. reflexivity.
Qed.

(** After a successful model switch, ordinary text is acknowledged with the
    new model id and the request to the AI names that model. *)
Theorem model_switch_then_text
    (w1 w2 : World) (st : Bot.State) (msg1 msg2 : Msg) (arg t : jsstring) :
  Bot.authorized cfg msg1 = true ->
  text msg1 = Some (lit "/set_model " ++ arg) ->
  arg <> [] ->
  forallb (fun c => negb (is_line_terminator c)) arg = true ->
  In (trim arg) (catalog_ids st) ->
  recognized (Bot.currentMode st) ->
  Bot.payload cfg msg2 = Some t ->
  startsWith (lit "/start") t = false ->
  trim t <> [] ->
  exists req,
    req_model req = trim arg
    /\ Bot.run cfg st [(w1, msg1); (w2, msg2)] =
       (Bot.mkState (Bot.currentMode st) (Bot.availableModels st) (trim arg),
        SendMessage (chat_id msg1) (lit "Switched model to: " ++ trim arg)
        :: SendMessage (chat_id msg2)
             (lit "Processing in " ++ Bot.currentMode st ++ lit " mode with "
              ++ trim arg ++ lit "...")
        :: HttpPost req
        :: Bot.relay w2 (chat_id msg2)
             (snd (Api.callDeepSeekAPI (fetch w2) t (Bot.currentMode st)
                     (trim arg) (Bot.deepSeekApiEndpoint cfg)
                     (Bot.deepSeekApiKey cfg)))).
Proof.
  intros Hauth Ht1 Hne1 Hdot Hin Hrec Hp Hstart Hne.
  assert (H1 : Bot.processUpdate cfg w1 st msg1 =
               (Bot.mkState (Bot.currentMode st) (Bot.availableModels st)
                  (trim arg),
                [SendMessage (chat_id msg1)
                   (lit "Switched model to: " ++ trim arg)])).
  { apply processUpdate_command.
    - eapply payload_set_model; exact Ht1.
    - erewrite onText_set_model by eassumption.
      apply on_set_model_found; assumption. }
  destruct (mode_settings_recognized Hrec) as [sys [pre [Hset _]]].
  eexists. split; [|
    cbn [Bot.run]; rewrite H1;
    erewrite processUpdate_payload;
      [ | exact Hp | eapply payload_no_callback; [exact Hp | exact Hstart] ];
    cbn [Bot.currentMode Bot.currentModelId Bot.availableModels];
    unfold Api.callDeepSeekAPI; apply is_empty_false in Hne;
    rewrite Hne, Hset; cbn [fst snd map app]; rewrite app_nil_r;
    reflexivity ].
  reflexivity.
Qed.

End BotMore.

(* ================================================================= *)
(** * The handler of polling errors *)

Lemma str_includes_spec (needle hay : jsstring) :
  BotProcess.str_includes needle hay = true <-> contains needle hay.
Proof.
  induction hay as [|c hay IH]; simpl.
  - rewrite orb_false_r. split.
    + intros H. apply startsWith_inv in H as [rest H].
      exists [], rest. exact H.
    + intros [pre [post H]]. symmetry in H.
      apply app_eq_nil in H as [_ H]. apply app_eq_nil in H as [-> _].
      reflexivity.
  - rewrite orb_true_iff, IH. split.
    + intros [H | [pre [post ->]]].
      * apply startsWith_inv in H as [rest ->]. apply contains_here.
      * exists (c :: pre), post. reflexivity.
    + intros [[|x pre] [post H]].
      * left. simpl in H. rewrite H. apply startsWith_app.
      * right. injection H as _ ->. exists pre, post. reflexivity.
Qed.

(** A polling error ends the process exactly when its code is "EFATAL" and
    its message mentions neither "ETIMEDOUT" nor "ECONNRESET": an error that
    mentions one of the two is taken for a network problem and polling goes
    on, fatal or not. *)
Theorem polling_error_exit (code : option jsstring) (message : jsstring) :
  BotProcess.on_polling_error code message = true <->
  code = Some (lit "EFATAL")
  /\ ~ contains (lit "ETIMEDOUT") message
  /\ ~ contains (lit "ECONNRESET") message.
Proof.
  unfold BotProcess.on_polling_error.
  destruct (BotProcess.str_includes (lit "ETIMEDOUT") message) eqn:E1.
  - cbn [orb]. apply str_includes_spec in E1. split; [discriminate|].
    intros [_ [H _]]; contradiction.
  - destruct (BotProcess.str_includes (lit "ECONNRESET") message) eqn:E2.
    + cbn [orb]. apply str_includes_spec in E2. split; [discriminate|].
      intros [_ [_ H]]; contradiction.
    + cbn [orb].
      assert (N1 : ~ contains (lit "ETIMEDOUT") message)
        by (intros H; apply str_includes_spec in H; congruence).
      assert (N2 : ~ contains (lit "ECONNRESET") message)
        by (intros H; apply str_includes_spec in H; congruence).
      destruct code as [c|].
      * rewrite str_eqb_eq. split.
        -- intros ->; auto.
        -- intros [H _]; injection H as ->; reflexivity.
      * split; [discriminate | intros [H _]; discriminate].
Qed.

(* ================================================================= *)
(** * The first version of the bot *)

Section BotV1Facts.
Context {R : Runtime}.
Variable cfg : BotV1.Config.

(** In the two modes the first version knows, its [callDeepSeekAPI] issues
    the requests and returns the string the one of [app/api.js] does for the
    configured model, endpoint and key; in any other mode, "chat" included,
    it answers "Internal error: Invalid processing mode." to an input that
    is not blank, and issues no request. *)
Theorem v1_adapter_agrees_on_two_modes
    (fetch : Fetch) (inputText mode : jsstring) :
  (mode = lit "prompt" \/ mode = lit "commit" ->
   BotV1.callDeepSeekAPI cfg fetch inputText mode
   = Api.callDeepSeekAPI fetch inputText mode (BotV1.deepSeekModel cfg)
       (BotV1.deepSeekApiEndpoint cfg) (BotV1.deepSeekApiKey cfg))
  /\ (trim inputText <> [] ->
      mode <> lit "prompt" -> mode <> lit "commit" ->
      BotV1.callDeepSeekAPI cfg fetch inputText mode
      = ([], lit "Internal error: Invalid processing mode.")).
Proof.
  unfold BotV1.callDeepSeekAPI, Api.callDeepSeekAPI. split.
  - intros [-> | ->]; destruct (is_empty (trim inputText)); reflexivity.
  - intros Hne H1 H2. apply is_empty_false in Hne. rewrite Hne.
    apply str_eqb_neq in H1, H2. rewrite H1, H2. reflexivity.
Qed.

Lemma v1_run_callbacks_none regs (msg : Msg) (t mode : jsstring) :
  (forall re cb, In (re, cb) regs -> re t = None) ->
  BotV1.run_callbacks regs msg t mode = (mode, []).
Proof.
  induction regs as [|[re cb] regs IH]; intros H; simpl; [reflexivity|].
  rewrite (H re cb) by (left; reflexivity).
  apply IH. intros re' cb' Hin. apply (H re' cb'). right; exact Hin.
Qed.


(** In the first version a rejected acknowledgment ends the handling of an
    ordinary text: the AI is not called and nothing reaches the user. *)
Theorem v1_rejected_acknowledgment_ends_it
    (w : World) (mode : jsstring) (msg : Msg) (t : jsstring) :
  BotV1.payload cfg msg = Some t ->
  startsWith (lit "/start") t = false ->
  ack w = None ->
  BotV1.processUpdate cfg w mode msg =
  (mode,
   [BotV1.Send (chat_id msg) (lit "Processing in " ++ mode ++ lit " mode...")
               false]).
Proof.
  intros Hp Hstart Hack.
  assert (Hinv : text msg = Some t /\ is_empty t = false
                 /\ str_eqb t (lit "/help") = false
                 /\ str_eqb t (lit "/prompt_mode") = false
                 /\ str_eqb t (lit "/commit_mode") = false).
  { revert Hp. unfold BotV1.payload.
    destruct (BotV1.isAuthorized cfg (from_id msg)); cbn [negb]; [|discriminate].
    destruct (text msg) as [t'|]; [|discriminate].
    destruct (is_empty t') eqn:E0; [discriminate|].
    destruct (str_eqb t' (lit "/help")) eqn:E1; [discriminate|].
    destruct (str_eqb t' (lit "/prompt_mode")) eqn:E2; [discriminate|].
    destruct (str_eqb t' (lit "/commit_mode")) eqn:E3; [discriminate|].
    cbn [orb]. intros H; injection H as ->. repeat split; assumption. }
  destruct Hinv as [Ht [He [H1 [H2 H3]]]].
  unfold BotV1.processUpdate, BotV1.onText. rewrite Ht, He.
  rewrite v1_run_callbacks_none.
  - unfold BotV1.acknowledge, BotV1.respond. rewrite Hp, Hack. reflexivity.
  - intros re cb Hin. unfold BotV1.registrations in Hin; cbn [In] in Hin.
    destruct Hin as [Heq | [Heq | [Heq | [Heq | []]]]];
      injection Heq as <- <-; unfold Bot.re_start, Bot.re_exact;
      rewrite ?Hstart, ?H1, ?H2, ?H3; reflexivity.
Qed.

End BotV1Facts.

(* ================================================================= *)
(** * The further statements at work *)

(** "translate" in a mode called "poem". *)
Lemma invalid_mode_poem :
  trim (lit "translate") <> []
  /\ ~ recognized (lit "poem")
  /\ Api.callDeepSeekAPI (R := Sample.runtime)
       (Sample.answering 200 Sample.reply_body) (lit "translate") (lit "poem")
       (lit "m") (lit "e") (lit "k")
     = ([], lit "Internal error: Invalid processing mode.").
Proof.
  assert (Hm : ~ recognized (lit "poem"))
    by (intros [H | [H | H]]; discriminate H).
  split; [discriminate|]. split; [exact Hm|].
  exact (proj1 (@invalid_mode_is_internal_error Sample.runtime
                  (Sample.answering 200 Sample.reply_body) (lit "translate")
                  (lit "poem") (lit "m") (lit "e") (lit "k")
                  ltac:(discriminate) Hm)).
Defined.

(** " add login " in commit mode. *)
Lemma request_add_login :
  trim (lit " add login ") <> []
  /\ recognized (lit "commit")
  /\ exists systemPrompt,
       fst (Api.callDeepSeekAPI (R := Sample.runtime)
              (Sample.answering 200 Sample.reply_body) (lit " add login ")
              (lit "commit") (lit "m") (lit "e") (lit "k"))
       = [ mkRequest (lit "e") (lit "Bearer k") (lit "m")
             [ mkMessage (lit "system") (Flat systemPrompt);
               mkMessage (lit "user")
                 (Flat (lit "Translate the following commit message into English"
                        ++ nl ++ lit "--- --- ---" ++ nl ++ lit "add login")) ] ].
Proof.
  split; [discriminate|]. split; [right; left; reflexivity|].
  destruct (@callDeepSeekAPI_request Sample.runtime
              (Sample.answering 200 Sample.reply_body) (lit " add login ")
              (lit "commit") (lit "m") (lit "e") (lit "k")
              ltac:(discriminate) (or_intror (or_introl eq_refl)))
    as [sys [pre [_ [Hreq [_ [_ Hpre]]]]]].
  exists sys. rewrite Hreq, (Hpre eq_refl). reflexivity.
Defined.

(** The DeepSeek model is not a Google model. *)
Lemma same_for_deepseek_model :
  startsWith (lit "google/") (lit "deepseek/deepseek-chat-v3-0324:free") = false
  /\ ApiV2.callOpenRouterAPI (R := Sample.runtime)
       (Sample.answering 200 Sample.reply_body) (lit "hi") (lit "chat")
       (lit "deepseek/deepseek-chat-v3-0324:free") (lit "e") (lit "k")
     = Api.callDeepSeekAPI (R := Sample.runtime)
         (Sample.answering 200 Sample.reply_body) (lit "hi") (lit "chat")
         (lit "deepseek/deepseek-chat-v3-0324:free") (lit "e") (lit "k").
Proof.
  split; [reflexivity|].
  apply (@standard_model_same_as_api Sample.runtime). reflexivity.
Defined.

(** A padded content comes back trimmed. *)
Lemma success_padded_content :
  ok (mkResponse 200 [] (Normal Cases.padded_body)) = true
  /\ snd (Api.callDeepSeekAPI (R := Sample.runtime)
            (Sample.answering 200 Cases.padded_body) (lit "hi") (lit "chat")
            (lit "m") (lit "e") (lit "k"))
     = lit "Hello".
Proof.
  split; [reflexivity|].
  exact (@success_returns_trimmed_content Sample.runtime
           (Api.callDeepSeekAPI (R := Sample.runtime))
           (Sample.answering 200 Cases.padded_body)
           (lit "hi") (lit "chat") (lit "m") (lit "e") (lit "k")
           Cases.hi_request
           (mkResponse 200 [] (Normal Cases.padded_body))
           Cases.padded_body (lit "  Hello  ")
           (JObject [ (lit "choices",
                       JArray [ JObject [ (lit "message",
                                  JObject [ (lit "content",
                                             JString (lit "  Hello  ")) ]) ] ]) ])
           (JObject [ (lit "message",
                       JObject [ (lit "content", JString (lit "  Hello  ")) ]) ])
           (JObject [ (lit "content", JString (lit "  Hello  ")) ])
           []
           (or_introl eq_refl) eq_refl eq_refl eq_refl eq_refl eq_refl
           eq_refl eq_refl eq_refl).
Defined.


(** The request is aborted. *)
Lemma timeout_reported :
  fetch Cases.world_timeout Cases.hi_request = Throw Cases.timeout
  /\ snd (Api.callDeepSeekAPI (R := Sample.runtime)
            (fetch Cases.world_timeout) (lit "hi") (lit "chat")
            (lit "m") (lit "e") (lit "k"))
     = lit "Sorry, the request to the AI timed out.".
Proof.
  split; [reflexivity|].
  exact (@failure_is_reported Sample.runtime
           (Api.callDeepSeekAPI (R := Sample.runtime))
           (fetch Cases.world_timeout)
           (lit "hi") (lit "chat") (lit "m") (lit "e") (lit "k")
           Cases.hi_request Cases.timeout
           (or_introl eq_refl) eq_refl (or_introl eq_refl)).
Defined.

(** "/commit_mode" from the authorized user. *)
Lemma commit_mode_switches :
  Bot.authorized Sample.cfg (Sample.from 42 (lit "/commit_mode")) = true
  /\ Bot.processUpdate (R := Sample.runtime) Sample.cfg Sample.world_ok
       Sample.st0 (Sample.from 42 (lit "/commit_mode"))
     = (Bot.mkState (lit "commit") Sample.models
          (lit "deepseek/deepseek-chat-v3-0324:free"),
        [SendMessage 1000 (lit "Switched to Commit Translation Mode.")]).
Proof.
  split; [reflexivity|].
  exact (proj2 (@mode_command_switches Sample.runtime Sample.cfg
                  Sample.world_ok Sample.st0
                  (Sample.from 42 (lit "/commit_mode"))
                  (lit "/commit_mode") (lit "commit")
                  (lit "Switched to Commit Translation Mode.")
                  eq_refl (or_intror (or_introl eq_refl)) eq_refl)).
Defined.

(** "/start now" from user 7. *)
Lemma stranger_start_denied :
  Bot.authorized Sample.cfg (Sample.from 7 (lit "/start" ++ lit " now")) = false
  /\ Bot.processUpdate (R := Sample.runtime) Sample.cfg Sample.world_ok
       Sample.st0 (Sample.from 7 (lit "/start" ++ lit " now"))
     = (Sample.st0,
        [SendMessage 1000 (lit "User ID 7 is not authorized to use this bot.")]).
Proof.
  split; [reflexivity|].
  exact (@unauthorized_start_is_denied Sample.runtime Sample.cfg
           Sample.world_ok Sample.st0
           (Sample.from 7 (lit "/start" ++ lit " now")) (lit " now")
           eq_refl eq_refl).
Defined.

(** A photo from the authorized user. *)
Lemma photo_is_dropped :
  text (mkMsg 1000 42 None) = None
  /\ Bot.processUpdate (R := Sample.runtime) Sample.cfg Sample.world_ok
       Sample.st0 (mkMsg 1000 42 None) = (Sample.st0, []).
Proof.
  split; [reflexivity|].
  exact (@no_text_is_dropped Sample.runtime Sample.cfg Sample.world_ok
           Sample.st0 (mkMsg 1000 42 None) (or_introl eq_refl)).
Defined.

(** "/help" from the authorized user. *)
Lemma help_in_prompt_mode :
  Bot.authorized Sample.cfg (Sample.from 42 (lit "/help")) = true
  /\ contains (lit "Current Mode: prompt" ++ nl) (Bot.helpText Sample.st0).
Proof.
  split; [reflexivity|].
  exact (proj1 (proj2 (@help_reports_settings Sample.runtime Sample.cfg
                         Sample.world_ok Sample.st0
                         (Sample.from 42 (lit "/help")) eq_refl eq_refl))).
Defined.

(** "/list_models" from the authorized user. *)
Lemma list_shows_qwen :
  Bot.authorized Sample.cfg (Sample.from 42 (lit "/list_models")) = true
  /\ contains (lit "  ID: qwen/qwen3-8b:free" ++ nl)
              (Bot.modelListText Sample.st0).
Proof.
  split; [reflexivity|].
  exact (proj1 (proj2 (@list_models_shows_catalogue Sample.runtime Sample.cfg
                         Sample.world_ok Sample.st0
                         (Sample.from 42 (lit "/list_models"))
                         eq_refl eq_refl))
           (Bot.mkModel (lit "qwen/qwen3-8b:free") (lit "Qwen3 8B")
              (lit "Another free model"))
           (or_intror (or_introl eq_refl))).
Defined.

(** "fix null pointer bug" from the authorized user. *)
Lemma pipeline_fix_bug :
  Bot.authorized Sample.cfg (Sample.from 42 (lit "fix null pointer bug")) = true
  /\ lit "fix null pointer bug" <> []
  /\ exists req,
       Bot.processUpdate (R := Sample.runtime) Sample.cfg Sample.world_ok
         Sample.st0 (Sample.from 42 (lit "fix null pointer bug"))
       = (Sample.st0,
          [ SendMessage 1000
              (lit "Processing in prompt mode with deepseek/deepseek-chat-v3-0324:free...");
            HttpPost req;
            EditMessageText (lit "Hello there") 1000 7 ]).
Proof.
  split; [reflexivity|]. split; [discriminate|].
  eexists.
  rewrite (@ordinary_text_pipeline Sample.runtime Sample.cfg Sample.world_ok
             Sample.st0 (Sample.from 42 (lit "fix null pointer bug"))
             (lit "fix null pointer bug")
             eq_refl eq_refl ltac:(discriminate) eq_refl eq_refl eq_refl).
  reflexivity.
Defined.

(** The acknowledgment cannot be sent: the answer comes as a new message. *)
Lemma no_ack_new_message :
  Bot.payload Sample.cfg (Sample.from 42 (lit "hello")) = Some (lit "hello")
  /\ ack Cases.world_no_ack = None
  /\ exists req,
       Bot.respond (R := Sample.runtime) Sample.cfg Cases.world_no_ack
         Sample.st0 (Sample.from 42 (lit "hello"))
       = [ HttpPost req; SendMessage 1000 (lit "Hello there") ].
Proof.
  split; [reflexivity|]. split; [reflexivity|].
  eexists.
  rewrite (@relay_without_acknowledgment Sample.runtime Sample.cfg
             Cases.world_no_ack Sample.st0 (Sample.from 42 (lit "hello"))
             (lit "hello") eq_refl (or_introl eq_refl)).
  reflexivity.
Defined.

(** After "/chat_mode" the mode is one of the three. *)
Lemma mode_after_chat_mode :
  Bot.init Sample.cfg (Bot.Parsed Sample.models) = Some Sample.st0
  /\ recognized
       (Bot.currentMode
          (fst (Bot.run (R := Sample.runtime) Sample.cfg Sample.st0
                  [ (Sample.world_ok, Sample.from 42 (lit "/chat_mode")) ]))).
Proof.
  split; [reflexivity|].
  exact (proj1 (@reachable_mode_is_served Sample.runtime Sample.cfg
                  (Bot.Parsed Sample.models) Sample.st0
                  [ (Sample.world_ok, Sample.from 42 (lit "/chat_mode")) ]
                  eq_refl)).
Defined.

(** The reply to "/help" is presentable. *)
Lemma help_reply_not_blank :
  In (SendMessage 1000 (Bot.helpText Sample.st0))
     (snd (Bot.processUpdate (R := Sample.runtime) Sample.cfg Sample.world_ok
             Sample.st0 (Sample.from 42 (lit "/help"))))
  /\ trim (Bot.helpText Sample.st0) <> [].
Proof.
  assert (Hin : In (SendMessage 1000 (Bot.helpText Sample.st0))
                   (snd (Bot.processUpdate (R := Sample.runtime) Sample.cfg
                           Sample.world_ok Sample.st0
                           (Sample.from 42 (lit "/help")))))
    by (left; reflexivity).
  split; [exact Hin|].
  exact (@never_shows_blank_text Sample.runtime Sample.cfg Sample.world_ok
           Sample.st0 (Sample.from 42 (lit "/help")) _ Hin).
Defined.

(** "/commit_mode", then "fix null pointer bug". *)
Lemma commit_then_fix_bug :
  Bot.authorized Sample.cfg (Sample.from 42 (lit "/commit_mode")) = true
  /\ Bot.payload Sample.cfg (Sample.from 42 (lit "fix null pointer bug"))
     = Some (lit "fix null pointer bug")
  /\ exists req,
       Bot.run (R := Sample.runtime) Sample.cfg Sample.st0
         [ (Sample.world_ok, Sample.from 42 (lit "/commit_mode"));
           (Sample.world_ok, Sample.from 42 (lit "fix null pointer bug")) ]
       = (Bot.mkState (lit "commit") Sample.models
            (lit "deepseek/deepseek-chat-v3-0324:free"),
          [ SendMessage 1000 (lit "Switched to Commit Translation Mode.");
            SendMessage 1000
              (lit "Processing in commit mode with deepseek/deepseek-chat-v3-0324:free...");
            HttpPost req;
            EditMessageText (lit "Hello there") 1000 7 ]).
Proof.
  split; [reflexivity|]. split; [reflexivity|].
  destruct (@mode_command_then_text Sample.runtime Sample.cfg
              Sample.world_ok Sample.world_ok Sample.st0
              (Sample.from 42 (lit "/commit_mode"))
              (Sample.from 42 (lit "fix null pointer bug"))
              (lit "/commit_mode") (lit "commit")
              (lit "Switched to Commit Translation Mode.")
              (lit "fix null pointer bug")
              eq_refl (or_intror (or_introl eq_refl)) eq_refl eq_refl eq_refl
              ltac:(discriminate))
    as [sys [pre [_ Hrun]]].
  eexists. rewrite Hrun. reflexivity.
Defined.

(** "/set_model qwen/qwen3-8b:free", then "hello". *)
Lemma qwen_then_hello :
  In (trim (lit "qwen/qwen3-8b:free")) (catalog_ids Sample.st0)
  /\ exists req,
       req_model req = lit "qwen/qwen3-8b:free"
       /\ snd (Bot.run (R := Sample.runtime) Sample.cfg Sample.st0
                 [ (Sample.world_ok,
                    Sample.from 42 (lit "/set_model " ++ lit "qwen/qwen3-8b:free"));
                   (Sample.world_ok, Sample.from 42 (lit "hello")) ])
          = [ SendMessage 1000 (lit "Switched model to: qwen/qwen3-8b:free");
              SendMessage 1000
                (lit "Processing in prompt mode with qwen/qwen3-8b:free...");
              HttpPost req;
              EditMessageText (lit "Hello there") 1000 7 ].
Proof.
  split; [right; left; reflexivity|].
  destruct (@model_switch_then_text Sample.runtime Sample.cfg
              Sample.world_ok Sample.world_ok Sample.st0
              (Sample.from 42 (lit "/set_model " ++ lit "qwen/qwen3-8b:free"))
              (Sample.from 42 (lit "hello"))
              (lit "qwen/qwen3-8b:free") (lit "hello")
              eq_refl eq_refl ltac:(discriminate) eq_refl
              (or_intror (or_introl eq_refl)) (or_introl eq_refl)
              eq_refl eq_refl ltac:(discriminate))
    as [req [Hmodel Hrun]].
  exists req. split; [exact Hmodel|]. rewrite Hrun. reflexivity.
Defined.


(** In the first version "hello" is lost when the acknowledgment fails. *)
Lemma v1_hello_lost :
  BotV1.payload Cases.cfg_v1 (Sample.from 42 (lit "hello")) = Some (lit "hello")
  /\ ack Cases.world_no_ack = None
  /\ BotV1.processUpdate (R := Sample.runtime) Cases.cfg_v1 Cases.world_no_ack
       (lit "prompt") (Sample.from 42 (lit "hello"))
     = (lit "prompt",
        [BotV1.Send 1000 (lit "Processing in prompt mode...") false]).
Proof.
  split; [reflexivity|]. split; [reflexivity|].
  exact (@v1_rejected_acknowledgment_ends_it Sample.runtime Cases.cfg_v1
           Cases.world_no_ack (lit "prompt") (Sample.from 42 (lit "hello"))
           (lit "hello") eq_refl eq_refl eq_refl).
Defined.

(* ================================================================= *)
(** * The model switch on an argument with a line break *)

Section ModelSwitchSlip.
Context {R : Runtime}.
Variable cfg : Bot.Config.

Lemma line_terminator_stops_dot (arg : jsstring) :
  existsb is_line_terminator arg = true ->
  forallb (fun c => negb (is_line_terminator c)) arg = false.
Proof.
  induction arg as [|c arg IH]; simpl; [discriminate|].
  destruct (is_line_terminator c); [reflexivity|].
  simpl. exact IH.
Qed.

Lemma re_set_model_line_terminator (arg : jsstring) :
  existsb is_line_terminator arg = true ->
  Bot.re_set_model (lit "/set_model " ++ arg) = None.
Proof.
  intros H. unfold Bot.re_set_model. rewrite startsWith_app.
  change 11 with (List.length (lit "/set_model ")).
  rewrite skipn_app_exact, (line_terminator_stops_dot _ H), andb_false_r.
  reflexivity.
Qed.

(** C4, where the code departs from it: "/set_model " followed by an
    argument that holds a line terminator (LF, CR, U+2028, U+2029), from the
    authorized sender.  The pattern of the model-switch handler does not
    match, its [.] stopping at the line terminator, and the general handler
    returns because the text starts with "/set_model ": the model id stays
    as it is and nothing is replied, whether the trimmed argument is a
    catalogue id or not. *)
Theorem C4_line_break_in_argument_is_ignored
    (w : World) (st : Bot.State) (msg : Msg) (arg : jsstring) :
  Bot.authorized cfg msg = true ->
  text msg = Some (lit "/set_model " ++ arg) ->
  existsb is_line_terminator arg = true ->
  Bot.re_set_model (lit "/set_model " ++ arg) = None
  /\ Bot.processUpdate cfg w st msg = (st, []).
Proof.
  intros Hauth Ht Hlt.
  assert (Hre : Bot.re_set_model (lit "/set_model " ++ arg) = None)
    by (apply re_set_model_line_terminator; exact Hlt).
  split; [exact Hre|].
  apply processUpdate_command.
  - eapply payload_set_model; exact Ht.
  - unfold Bot.onText. rewrite Ht.
    rewrite is_empty_lit_app by reflexivity.
    apply run_callbacks_none.
    intros re cb Hin. unfold Bot.registrations in Hin; cbn [In] in Hin.
    do 6 (destruct Hin as [Heq | Hin];
          [injection Heq as <- <-; reflexivity|]).
    destruct Hin as [Heq | []]. injection Heq as <- <-. exact Hre.
Qed.

End ModelSwitchSlip.

(** "/set_model nope", a line feed, "x": no catalogue id, and no reply; and
    "/set_model qwen/qwen3-8b:free" with a line feed at its end: a catalogue
    id once trimmed, and no switch. *)
Lemma C4_line_feed_examples :
  (Bot.authorized Sample.cfg
     (Sample.from 42 (lit "/set_model " ++ (lit "nope" ++ nl ++ lit "x"))) = true
   /\ existsb is_line_terminator (lit "nope" ++ nl ++ lit "x") = true
   /\ ~ In (trim (lit "nope" ++ nl ++ lit "x")) (catalog_ids Sample.st0)
   /\ Bot.processUpdate (R := Sample.runtime) Sample.cfg Sample.world_ok
        Sample.st0
        (Sample.from 42 (lit "/set_model " ++ (lit "nope" ++ nl ++ lit "x")))
      = (Sample.st0, []))
  /\ (In (trim (lit "qwen/qwen3-8b:free" ++ nl)) (catalog_ids Sample.st0)
      /\ Bot.processUpdate (R := Sample.runtime) Sample.cfg Sample.world_ok
           Sample.st0
           (Sample.from 42 (lit "/set_model " ++ (lit "qwen/qwen3-8b:free" ++ nl)))
         = (Sample.st0, [])).
Proof.
  split.
  - split; [reflexivity|]. split; [reflexivity|]. split.
    + intros [H | [H | []]]; discriminate H.
    + exact (proj2 (@C4_line_break_in_argument_is_ignored Sample.runtime
                      Sample.cfg Sample.world_ok Sample.st0
                      (Sample.from 42
                         (lit "/set_model " ++ (lit "nope" ++ nl ++ lit "x")))
                      (lit "nope" ++ nl ++ lit "x") eq_refl eq_refl eq_refl)).
  - split; [right; left; reflexivity|].
    exact (proj2 (@C4_line_break_in_argument_is_ignored Sample.runtime
                    Sample.cfg Sample.world_ok Sample.st0
                    (Sample.from 42
                       (lit "/set_model " ++ (lit "qwen/qwen3-8b:free" ++ nl)))
                    (lit "qwen/qwen3-8b:free" ++ nl) eq_refl eq_refl eq_refl)).
Defined.
